(** * islplot.plotter: a shallow embedding and its verified properties

    The module [islplot/plotter.py] draws integer sets and maps of the isl
    library with matplotlib.  Its functions compute nothing themselves: they
    ask the geometry library for points and vertices and issue drawing calls
    on the (process wide) pyplot canvas.

    The embedding follows that shape:
    - the Python run time the code relies on (exceptions, [assert], list
      indexing, [for] loops) is a small state-and-exception monad [M];
    - the pyplot canvas is the state: the list of calls issued so far;
    - islpy and the helper module [islplot.support], neither of which is
      part of the plotted source, are interfaces ([Geometry], [Support]);
      their queries are total functions, so a failure raised inside a
      query is outside the model; an exception raised inside a callback
      handed to islpy comes back as islpy's own error;
    - the two pyplot calls that reject their arguments, [annotate] and the
      construction of a [Path], raise [ValueError] when a position is not
      a pair;
    - a reference instance over finite lists of lattice points
      ([FiniteModel]) makes every function executable. *)

From Stdlib Require Import List ZArith QArith String Bool Arith Lia.
Import ListNotations.

Set Implicit Arguments.

(** ** Python run time *)

(** The exceptions of a run: those the plotted code raises itself, a
    failed [assert] (with its optional message) and an index out of range,
    the [ValueError] with which matplotlib rejects a position that is not
    a pair, and [islpy.Error], raised by islpy when a callback it was
    handed has raised. *)
Inductive exn : Type :=
| AssertionError (msg : option string)
| IndexError
| ValueError
| IslError.

Inductive result (A : Type) : Type :=
| Ok (a : A)
| Raise (e : exn).

Arguments Ok {A} a.
Arguments Raise {A} e.

Definition result_bind {A B} (r : result A) (k : A -> result B) : result B :=
  match r with
  | Ok a => k a
  | Raise e => Raise e
  end.

(** [x[i]] on a Python list, for a literal index [i >= 0]. *)
Definition getitem {A} (x : list A) (i : nat) : result A :=
  match nth_error x i with
  | Some a => Ok a
  | None => Raise IndexError
  end.

(** [x[i] = v] on a Python list. *)
Fixpoint setitem {A} (x : list A) (i : nat) (v : A) : result (list A) :=
  match x, i with
  | [], _ => Raise IndexError
  | _ :: t, O => Ok (v :: t)
  | h :: t, S j => result_bind (setitem t j v) (fun t' => Ok (h :: t'))
  end.

(** A list comprehension [[f x for x in l]] whose body may raise: the
    elements are evaluated from left to right and the first exception
    ends the comprehension. *)
Fixpoint comprehension {A B} (f : A -> result B) (l : list A)
  : result (list B) :=
  match l with
  | [] => Ok []
  | x :: t =>
      result_bind (f x) (fun y =>
      result_bind (comprehension f t) (fun ys => Ok (y :: ys)))
  end.

(** Truth value of an optional string ([None] and [""] are false). *)
Definition truthy (s : option string) : bool :=
  match s with
  | None => false
  | Some EmptyString => false
  | Some _ => true
  end.

(** Values a caller may pass positionally. *)
Inductive pyval : Type :=
| PyNone
| PyBool (b : bool)
| PyInt (z : Z)
| PyStr (s : string).

(** ** The pyplot canvas *)

Definition coords := list Q.

Inductive path_code : Type := MOVETO | LINETO | CLOSEPOLY.

(** The [arrowprops] dictionary built by [_plot_arrow]. *)
Record arrowprops : Type := ArrowProps {
  arrowstyle : string;
  connectionstyle : string;
  shrinkA : Z;
  shrinkB : Z;
  linewidth : Z;
  arrow_color : string
}.

(** One call on the pyplot interface.  [Plot] is [pyplot.plot(xs, ys, fmt,
    markersize=.., color=.., lw=..)], [Annotate] is [pyplot.annotate] and
    [AddPatch] is [gca().add_patch(PathPatch(Path(verts, codes),
    facecolor=..))]. *)
Inductive call : Type :=
| Autoscale (enable tight : bool)
| TightLayout
| Plot (xs ys : list Q) (fmt : string) (markersize : Z) (color : string)
       (lw : option Z)
| Annotate (text : string) (xy : coords) (xycoords : string)
           (xytext : coords) (textcoords : string) (props : arrowprops)
| AddPatch (verts : list coords) (codes : list path_code)
           (facecolor : string).

Definition canvas := list call.

(** matplotlib draws the arrow of an annotation from the text position
    [xytext] to the annotated position [xy]: the tail is at [xytext], the
    head at [xy]. *)
Definition arrow_tail (c : call) : option coords :=
  match c with
  | Annotate _ _ _ xytext _ _ => Some xytext
  | _ => None
  end.

Definition arrow_head (c : call) : option coords :=
  match c with
  | Annotate _ xy _ _ _ _ => Some xy
  | _ => None
  end.

(** Calls that put something on the canvas, as opposed to the calls that
    only configure it. *)
Definition is_drawing (c : call) : bool :=
  match c with
  | Autoscale _ _ | TightLayout => false
  | Plot _ _ _ _ _ _ | Annotate _ _ _ _ _ _ | AddPatch _ _ _ => true
  end.

Definition is_patch (c : call) : bool :=
  match c with
  | AddPatch _ _ _ => true
  | _ => false
  end.

(** ** The monad of rendering code

    A computation receives the canvas, returns the canvas it leaves behind
    and either a value or the exception that ended it.  An exception keeps
    what was drawn before it. *)
Definition M (A : Type) : Type := canvas -> canvas * result A.

Definition ret {A} (a : A) : M A := fun c => (c, Ok a).

Definition bind {A B} (m : M A) (k : A -> M B) : M B :=
  fun c =>
    match m c with
    | (c', Ok a) => k a c'
    | (c', Raise e) => (c', Raise e)
    end.

Definition raise {A} (e : exn) : M A := fun c => (c, Raise e).

Definition lift {A} (r : result A) : M A := fun c => (c, r).

Definition emit (d : call) : M unit := fun c => (c ++ [d], Ok tt).

Declare Scope py_scope.
Delimit Scope py_scope with py.
Notation "x <- m ;; k" := (bind m (fun x => k))
  (at level 61, m at next level, right associativity) : py_scope.
Notation "m ;; k" := (bind m (fun _ => k))
  (at level 61, right associativity) : py_scope.
Local Open Scope py_scope.

(** [assert cond, msg] *)
Definition assert_ (cond : bool) (msg : option string) : M unit :=
  if cond then ret tt else raise (AssertionError msg).

(** [for x in l: body(x)] *)
Fixpoint for_each {A} (l : list A) (body : A -> M unit) : M unit :=
  match l with
  | [] => ret tt
  | x :: t => body x ;; for_each t body
  end.

(** A loop run by islpy over a callback ([foreach_basic_set(callback)]):
    islpy stops at the first callback that raises, drops its exception
    and raises [islpy.Error] in its place. *)
Fixpoint foreach_callback {A} (l : list A) (callback : A -> M unit)
  : M unit :=
  match l with
  | [] => ret tt
  | x :: t =>
      fun c =>
        match callback x c with
        | (c', Ok _) => foreach_callback t callback c'
        | (c', Raise _) => (c', Raise IslError)
        end
  end.

(** *** The pyplot calls that check their arguments *)

Definition is_pair (x : coords) : bool := Nat.eqb (List.length x) 2.

(** [pyplot.annotate(text, xy=.., xycoords=.., xytext=.., textcoords=..,
    arrowprops=..)]: both positions are unpacked as pairs. *)
Definition annotate (text : string) (xy : coords) (xycoords : string)
    (xytext : coords) (textcoords : string) (props : arrowprops) : M unit :=
  if is_pair xy && is_pair xytext
  then emit (Annotate text xy xycoords xytext textcoords props)
  else raise ValueError.

(** [gca().add_patch(PathPatch(Path(verts, codes), facecolor=..))]: a
    [Path] takes vertices that are pairs, as many codes as vertices, and
    MOVETO as its first code. *)
Definition add_path_patch (verts : list coords) (codes : list path_code)
    (facecolor : string) : M unit :=
  if forallb is_pair verts
     && Nat.eqb (List.length codes) (List.length verts)
     && match codes with
        | [] | MOVETO :: _ => true
        | _ => false
        end
  then emit (AddPatch verts codes facecolor)
  else raise ValueError.

(** ** The geometry library (islpy)

    The objects are opaque.  [foreach_point s] is the sequence of points
    with which [s.foreach_point] calls its callback, in that order;
    [foreach_basic_set] likewise.  A [BasicSet] is accepted wherever a set
    is expected ([to_set]). *)
Class Geometry : Type := {
  Point : Type;
  BasicSet : Type;
  ISet : Type;
  IMap : Type;
  to_set : BasicSet -> ISet;
  from_point : Point -> BasicSet;
  foreach_point : ISet -> list Point;
  foreach_basic_set : ISet -> list BasicSet;
  bset_is_bounded : BasicSet -> bool;
  is_bounded : ISet -> bool;
  convex_hull : ISet -> BasicSet;
  is_equal : ISet -> ISet -> bool;
  apply : ISet -> IMap -> ISet;
  range : IMap -> ISet;
  domain : IMap -> ISet;
  intersect_range : IMap -> ISet -> IMap;
  intersect_domain : IMap -> ISet -> IMap;
  apply_range : IMap -> IMap -> IMap;
  apply_domain : IMap -> IMap -> IMap;
  reverse : IMap -> IMap;
  subtract : IMap -> IMap -> IMap
}.

(** ** The helper module (islplot.support) *)

(** Modelled from the spec: the module [islplot.support] is not part of the
    plotted source.  [get_point_coordinates] yields the coordinate values of
    a point, one per dimension, in dimension order;
    [bset_get_vertex_coordinates] the boundary vertices of a basic set, in
    the order the polygon is drawn; [get_rectangular_hull s k] the
    rectangular hull of [s] widened by [k] in each direction. *)
Class Support (G : Geometry) : Type := {
  get_point_coordinates : Point -> coords;
  bset_get_vertex_coordinates : BasicSet -> list coords;
  get_rectangular_hull : ISet -> Z -> ISet
}.

(** ** plotter.py *)

Section Plotter.

Context {G : Geometry} {Sup : Support G}.

(** def plot_set_points(set_data, color="black", size=10, marker="o") *)
Definition plot_set_points (set_data : ISet) (color : string) (size : Z)
    (marker : string) : M unit :=
  let points := map get_point_coordinates (foreach_point set_data) in
  dimX <- lift (comprehension (fun x => getitem x 0) points) ;;
  dimY <- lift (comprehension (fun x => getitem x 1) points) ;;
  emit (Plot dimX dimY marker size color (Some 0%Z)).

(** The keyword arguments [_plot_arrow] pops from [**kwargs]. *)
Record arrow_kwargs : Type := ArrowKwargs {
  kw_style : option string;
  kw_width : option Z;
  kw_color : option string
}.

Definition pop {A} (kw : option A) (default : A) : A :=
  match kw with
  | Some v => v
  | None => default
  end.

(** def _plot_arrow(start, end, graph, *args, **kwargs); [graph] is
    always pyplot itself, the canvas. *)
Definition _plot_arrow (start end_ : coords) (args : list pyval)
    (kwargs : arrow_kwargs) : M unit :=
  let shrinkA := 10%Z in
  let shrinkB := 10%Z in
  let style := pop (kw_style kwargs) "->"%string in
  let width := pop (kw_width kwargs) 1%Z in
  let color := pop (kw_color kwargs) "black"%string in
  annotate "" end_ "data" start "data"
           (ArrowProps style "arc3" shrinkA shrinkB width color).

(** def plot_map(map_data, edge_style="->", edge_width=1, color="black") *)
Definition plot_map (map_data : IMap) (edge_style : string)
    (edge_width : Z) (color : string) : M unit :=
  let start_points := foreach_point (range map_data) in
  for_each start_points (fun start =>
    let limited := intersect_range map_data (to_set (from_point start)) in
    let end_points := foreach_point (domain limited) in
    for_each end_points (fun end_ =>
      _plot_arrow (get_point_coordinates end_)
                  (get_point_coordinates start)
                  []
                  (ArrowKwargs (Some edge_style) (Some edge_width)
                               (Some color)))).

(** def plot_bset_shape(bset_data, show_vertices=True, color="gray",
                        vertex_color=None, vertex_marker="o",
                        vertex_size=10) *)
Definition plot_bset_shape (bset_data : BasicSet) (show_vertices : bool)
    (color : string) (vertex_color : option string)
    (vertex_marker : string) (vertex_size : Z) : M unit :=
  assert_ (bset_is_bounded bset_data) (Some "Expected bounded set"%string) ;;
  let vertex_color :=
    if negb (truthy vertex_color) then color
    else pop vertex_color color in
  let vertices := bset_get_vertex_coordinates bset_data in
  (if show_vertices then
     dimX <- lift (comprehension (fun x => getitem x 0) vertices) ;;
     dimY <- lift (comprehension (fun x => getitem x 1) vertices) ;;
     emit (Plot dimX dimY vertex_marker vertex_size vertex_color None)
   else ret tt) ;;
  if Nat.eqb (List.length vertices) 0 then ret tt
  else
    let codes := repeat LINETO (List.length vertices) in
    codes <- lift (setitem codes 0 MOVETO) ;;
    let pathdata := combine codes vertices in
    let pathdata := pathdata ++ [(CLOSEPOLY, [0 # 1; 0 # 1])] in
    let '(codes, verts) := List.split pathdata in
    add_path_patch verts codes color.

(** The keyword arguments [plot_set_shapes] forwards with [**kwargs];
    an absent keyword leaves the default of [plot_bset_shape]. *)
Record shape_kwargs : Type := ShapeKwargs {
  kw_show_vertices : option bool;
  kw_shape_color : option string;
  kw_vertex_color : option string;
  kw_vertex_marker : option string;
  kw_vertex_size : option Z
}.

(** def plot_set_shapes(set_data, *args, **kwargs) *)
Definition plot_set_shapes (set_data : ISet) (args : list pyval)
    (kwargs : shape_kwargs) : M unit :=
  assert_ (is_bounded set_data) (Some "Expected bounded set"%string) ;;
  foreach_callback (foreach_basic_set set_data) (fun x =>
    plot_bset_shape x
      (pop (kw_show_vertices kwargs) true)
      (pop (kw_shape_color kwargs) "gray"%string)
      (kw_vertex_color kwargs)
      (pop (kw_vertex_marker kwargs) "o"%string)
      (pop (kw_vertex_size kwargs) 10%Z)).

(** def plot_map_as_groups(bmap, color="gray", vertex_color=None,
                           vertex_marker="o", vertex_size=10) *)
Definition plot_map_as_groups (bmap : IMap) (color : string)
    (vertex_color : option string) (vertex_marker : string)
    (vertex_size : Z) : M unit :=
  let vertex_color :=
    if negb (truthy vertex_color) then color
    else pop vertex_color color in
  let points := foreach_point (range bmap) in
  for_each points (fun point =>
    let point_set := from_point point in
    let part_set := domain (intersect_range bmap (to_set point_set)) in
    let part_set_convex := convex_hull part_set in
    assert_ (is_equal part_set (to_set part_set_convex)) None ;;
    let part_set := part_set_convex in
    plot_set_points (to_set part_set) vertex_color vertex_size
                    vertex_marker ;;
    plot_bset_shape part_set true color (Some vertex_color)
                    vertex_marker vertex_size).

(** def plot_domain(domain, dependences=None, tiling=None, space=None,
                    tile_color="blue", vertex_color="black",
                    vertex_size=10, vertex_marker="o", background=True)

    An islpy object is true in a condition, [None] is false. *)
Definition plot_domain (domain_ : ISet) (dependences tiling space : option IMap)
    (tile_color vertex_color : string) (vertex_size : Z)
    (vertex_marker : string) (background : bool) : M unit :=
  emit (Autoscale true true) ;;
  emit TightLayout ;;
  let '(domain_, dependences, tiling) :=
    match space with
    | Some space =>
        let domain_ := apply domain_ space in
        let dependences :=
          match dependences with
          | Some dependences =>
              let dependences := apply_range dependences space in
              Some (apply_domain dependences space)
          | None => None
          end in
        let tiling :=
          match tiling with
          | Some tiling => Some (apply_domain tiling space)
          | None => None
          end in
        (domain_, dependences, tiling)
    | None => (domain_, dependences, tiling)
    end in
  let hull := get_rectangular_hull domain_ 1 in
  (if background then
     plot_set_points hull "lightgray" vertex_size vertex_marker
   else ret tt) ;;
  plot_set_points domain_ vertex_color vertex_size vertex_marker ;;
  (match dependences with
   | Some dependences =>
       let dependences := intersect_range dependences domain_ in
       let dependences := intersect_domain dependences domain_ in
       let dependences :=
         match tiling with
         | Some tiling =>
             let same_tile := apply_range tiling (reverse tiling) in
             subtract dependences same_tile
         | None => dependences
         end in
       plot_map dependences "->" 1 "gray"
   | None => ret tt
   end) ;;
  match tiling with
  | Some tiling =>
      let tiling := intersect_domain tiling domain_ in
      plot_map_as_groups tiling tile_color (Some vertex_color)
                         vertex_marker vertex_size
  | None => ret tt
  end.

End Plotter.

(** ** What the geometry operations mean

    The plotted code never looks inside a set or a map, but the claims about
    it speak of the pairs a map relates and of the points a set contains.
    [Semantics] names these two relations, [GeometryLaws] states what the
    operations of the library do in their terms, as isl documents them. *)
Class Semantics (G : Geometry) : Type := {
  set_mem : ISet -> Point -> Prop;
  map_mem : IMap -> Point -> Point -> Prop
}.

Class GeometryLaws (G : Geometry) (Sem : Semantics G) : Prop := {
  (** a set with finitely many points is enumerated exactly, each point
      once *)
  foreach_point_spec : forall s l,
    (forall p, set_mem s p -> In p l) ->
    NoDup (foreach_point s) /\
    (forall p, In p (foreach_point s) <-> set_mem s p);
  from_point_spec : forall p q,
    set_mem (to_set (from_point p)) q <-> q = p;
  range_spec : forall m y,
    set_mem (range m) y <-> exists x, map_mem m x y;
  domain_spec : forall m x,
    set_mem (domain m) x <-> exists y, map_mem m x y;
  intersect_range_spec : forall m s x y,
    map_mem (intersect_range m s) x y <-> map_mem m x y /\ set_mem s y;
  intersect_domain_spec : forall m s x y,
    map_mem (intersect_domain m s) x y <-> map_mem m x y /\ set_mem s x;
  apply_range_spec : forall m t x z,
    map_mem (apply_range m t) x z <->
    exists y, map_mem m x y /\ map_mem t y z;
  reverse_spec : forall m x y,
    map_mem (reverse m) x y <-> map_mem m y x;
  subtract_spec : forall m n x y,
    map_mem (subtract m n) x y <-> map_mem m x y /\ ~ map_mem n x y
}.

(** What applying a map to a set, and to the domain of a map, means:
    [s.apply(m)] is the image of [s] under [m], [m.apply_domain(t)]
    replaces every domain point of [m] by its images under [t]. *)
Class TransformLaws (G : Geometry) (Sem : Semantics G) : Prop := {
  apply_spec : forall s m q,
    set_mem (apply s m) q <-> exists p, set_mem s p /\ map_mem m p q;
  apply_domain_spec : forall m t x' y,
    map_mem (apply_domain m t) x' y <->
    exists x, map_mem m x y /\ map_mem t x x'
}.

(** ** A reference model: finite sets of lattice points

    Sets are finite lists of integer points, plus the universe as the one
    unbounded set; maps are finite lists of pairs.  Convex hulls and
    vertices are computed for points of dimension at most two.

    The model serves to run the functions on concrete inputs.  isl fixes
    no order in which the points or the basic sets of a set are visited;
    the model visits them in the order of its lists, which need not be the
    order of islpy, and no statement of this file relies on that order
    beyond what it says of a run of this model.  islpy refuses to
    enumerate an unbounded set; a total [foreach_point] cannot say so, and
    the universe, which is only there to be asked whether it is bounded,
    lists no point. *)
Module FiniteModel.

Definition point := list Z.

Inductive fset : Type :=
| Fin (l : list point)
| Univ.

Definition fmap := list (point * point).

Definition point_eq_dec : forall p q : point, {p = q} + {p <> q} :=
  list_eq_dec Z.eq_dec.

Definition pair_eq_dec : forall p q : point * point, {p = q} + {p <> q}.
Proof. decide equality; apply point_eq_dec. Defined.

Definition memb (s : fset) (p : point) : bool :=
  match s with
  | Fin l => if in_dec point_eq_dec p l then true else false
  | Univ => true
  end.

Definition f_foreach_point (s : fset) : list point :=
  match s with
  | Fin l => nodup point_eq_dec l
  | Univ => []
  end.

Definition f_foreach_basic_set (s : fset) : list fset :=
  match s with
  | Fin l => map (fun p => Fin [p]) (nodup point_eq_dec l)
  | Univ => [Univ]
  end.

Definition f_is_bounded (s : fset) : bool :=
  match s with
  | Fin _ => true
  | Univ => false
  end.

Definition f_is_equal (s t : fset) : bool :=
  match s, t with
  | Fin a, Fin b => forallb (memb t) a && forallb (memb s) b
  | Univ, Univ => true
  | _, _ => false
  end.

Definition f_range (m : fmap) : fset := Fin (map snd m).
Definition f_domain (m : fmap) : fset := Fin (map fst m).

Definition f_intersect_range (m : fmap) (s : fset) : fmap :=
  filter (fun pr => memb s (snd pr)) m.

Definition f_intersect_domain (m : fmap) (s : fset) : fmap :=
  filter (fun pr => memb s (fst pr)) m.

Definition f_apply_range (m t : fmap) : fmap :=
  flat_map (fun xy =>
    map (fun yz => (fst xy, snd yz))
        (filter (fun yz => if point_eq_dec (snd xy) (fst yz)
                           then true else false) t)) m.

Definition f_reverse (m : fmap) : fmap :=
  map (fun xy => (snd xy, fst xy)) m.

Definition f_apply_domain (m t : fmap) : fmap :=
  f_reverse (f_apply_range (f_reverse m) t).

Definition f_subtract (m n : fmap) : fmap :=
  filter (fun pr => if in_dec pair_eq_dec pr n then false else true) m.

Definition f_apply (s : fset) (m : fmap) : fset :=
  f_range (f_intersect_domain m s).

(** *** Boxes, hulls and vertices *)

Definition Z_range (lo hi : Z) : list Z :=
  map (fun i => (lo + Z.of_nat i)%Z) (seq 0 (Z.to_nat (hi - lo + 1))).

Definition coordinate (i : nat) (p : point) : Z := nth i p 0%Z.

Definition minimum (l : list Z) : Z :=
  match l with
  | [] => 0%Z
  | x :: t => fold_left Z.min t x
  end.

Definition maximum (l : list Z) : Z :=
  match l with
  | [] => 0%Z
  | x :: t => fold_left Z.max t x
  end.

Definition product (ranges : list (list Z)) : list point :=
  fold_right (fun rng acc => flat_map (fun x => map (cons x) acc) rng)
             [[]] ranges.

(** The lattice points of the bounding box of [l], widened by [k]. *)
Definition box (l : list point) (k : Z) : list point :=
  match l with
  | [] => []
  | p :: _ =>
      product (map (fun i =>
                 Z_range (minimum (map (coordinate i) l) - k)
                         (maximum (map (coordinate i) l) + k))
                 (seq 0 (List.length p)))
  end.

Definition cross (o a b : point) : Z :=
  ((coordinate 0 a - coordinate 0 o) * (coordinate 1 b - coordinate 1 o)
   - (coordinate 1 a - coordinate 1 o) * (coordinate 0 b - coordinate 0 o))%Z.

Definition between (u v w : Z) : bool :=
  ((Z.min u v <=? w) && (w <=? Z.max u v))%Z.

Definition on_segment (a b q : point) : bool :=
  (cross a b q =? 0)%Z
  && between (coordinate 0 a) (coordinate 0 b) (coordinate 0 q)
  && between (coordinate 1 a) (coordinate 1 b) (coordinate 1 q).

Definition in_triangle (a b c q : point) : bool :=
  if (cross a b c =? 0)%Z then
    on_segment a b q || on_segment b c q || on_segment a c q
  else
    let d1 := cross a b q in
    let d2 := cross b c q in
    let d3 := cross c a q in
    let neg := ((d1 <? 0) || (d2 <? 0) || (d3 <? 0))%Z in
    let pos := ((0 <? d1) || (0 <? d2) || (0 <? d3))%Z in
    negb (neg && pos).

(** Membership in the convex hull of a finite planar point set: by
    Caratheodory's theorem a point of the hull lies in a (possibly
    degenerate) triangle spanned by three of the points. *)
Definition in_hull (l : list point) (q : point) : bool :=
  match l with
  | [] => false
  | p :: _ =>
      match List.length p with
      | 0%nat | 1%nat => true
      | 2%nat =>
          existsb (fun a => existsb (fun b => existsb (fun c =>
            in_triangle a b c q) l) l) l
      | _ => if in_dec point_eq_dec q l then true else false
      end
  end.

Definition hull_points (l : list point) : list point :=
  filter (in_hull l) (box l 0).

Definition f_convex_hull (s : fset) : fset :=
  match s with
  | Fin l => Fin (hull_points l)
  | Univ => Univ
  end.

Definition f_get_rectangular_hull (s : fset) (k : Z) : fset :=
  match s with
  | Fin l => Fin (box l k)
  | Univ => Univ
  end.

Definition lex_lt (p q : point) : bool :=
  ((coordinate 0 p <? coordinate 0 q)
   || ((coordinate 0 p =? coordinate 0 q)
       && (coordinate 1 p <? coordinate 1 q)))%Z.

Definition dist2 (p q : point) : Z :=
  ((coordinate 0 q - coordinate 0 p) * (coordinate 0 q - coordinate 0 p)
   + (coordinate 1 q - coordinate 1 p) * (coordinate 1 q - coordinate 1 p))%Z.

(** The next vertex after [cur] when walking the hull counter-clockwise:
    no point lies to the right of the edge towards it. *)
Definition next_vertex (l : list point) (cur : point) : option point :=
  fold_left (fun best q =>
    if point_eq_dec q cur then best
    else match best with
         | None => Some q
         | Some b =>
             let cr := cross cur b q in
             if (cr <? 0)%Z then Some q
             else if ((cr =? 0) && (dist2 cur b <? dist2 cur q))%Z
                  then Some q else best
         end) l None.

Fixpoint march (fuel : nat) (l : list point) (start cur : point)
  : list point :=
  match fuel with
  | O => []
  | S fuel' =>
      match next_vertex l cur with
      | None => []
      | Some n =>
          if point_eq_dec n start then []
          else n :: march fuel' l start n
      end
  end.

Definition vertices_of (l : list point) : list point :=
  match l with
  | [] => []
  | p :: t =>
      let start := fold_left (fun m q => if lex_lt q m then q else m) t p in
      start :: march (List.length l) l start start
  end.

Definition f_get_point_coordinates (p : point) : coords :=
  map inject_Z p.

Definition f_bset_get_vertex_coordinates (s : fset) : list coords :=
  match s with
  | Fin l => map f_get_point_coordinates
                 (vertices_of (nodup point_eq_dec l))
  | Univ => []
  end.

#[export] Instance geometry : Geometry := {|
  Point := point;
  BasicSet := fset;
  ISet := fset;
  IMap := fmap;
  to_set := fun b => b;
  from_point := fun p => Fin [p];
  foreach_point := f_foreach_point;
  foreach_basic_set := f_foreach_basic_set;
  bset_is_bounded := f_is_bounded;
  is_bounded := f_is_bounded;
  convex_hull := f_convex_hull;
  is_equal := f_is_equal;
  apply := f_apply;
  range := f_range;
  domain := f_domain;
  intersect_range := f_intersect_range;
  intersect_domain := f_intersect_domain;
  apply_range := f_apply_range;
  apply_domain := f_apply_domain;
  reverse := f_reverse;
  subtract := f_subtract
|}.

#[export] Instance support : Support geometry := {|
  get_point_coordinates := f_get_point_coordinates;
  bset_get_vertex_coordinates := f_bset_get_vertex_coordinates;
  get_rectangular_hull := f_get_rectangular_hull
|}.

#[export] Instance semantics : Semantics geometry := {|
  set_mem := fun s p => memb s p = true;
  map_mem := fun m x y => In (x, y) m
|}.

End FiniteModel.

(** ** Inputs for concrete runs *)

Module Examples.

Import FiniteModel.
Local Open Scope Z_scope.

(** The map [{ (0,0) -> (1,1) }]. *)
Definition one_pair : fmap := [([0; 0], [1; 1])].


(** Four iterations in a row, each depending on the one before it, the
    last one on an iteration outside the domain; two tiles of two. *)
Definition row : fset := Fin [[0; 0]; [1; 0]; [2; 0]; [3; 0]].

Definition row_dependences : fmap :=
  [([0; 0], [1; 0]); ([1; 0], [2; 0]); ([2; 0], [3; 0]);
   ([3; 0], [4; 0])].

Definition row_tiling : fmap :=
  [([0; 0], [0]); ([1; 0], [0]); ([2; 0], [1]); ([3; 0], [1])].

(** The transform that moves the row up by one. *)
Definition shift_up : fmap :=
  [([0; 0], [0; 1]); ([1; 0], [1; 1]); ([2; 0], [2; 1]); ([3; 0], [3; 1])].

(** A one dimensional domain. *)
Definition line : fset := Fin [[0]; [1]].

(** The unit square with its centre. *)
Definition square : fset :=
  Fin [[0; 0]; [2; 0]; [2; 2]; [0; 2]; [1; 1]].

End Examples.

(** ** Derived notions used in the statements *)

(** What a computation adds to the canvas it is started on, and how it
    ends. *)
Definition issued {A} (m : M A) (c : canvas) : list call :=
  skipn (List.length c) (fst (m c)).

Definition outcome {A} (m : M A) (c : canvas) : result A := snd (m c).

Section Groups.

Context {G : Geometry} {Sup : Support G}.

(** The members of the group of [point]: the expression bound to
    [part_set] in the loop of [plot_map_as_groups]. *)
Definition group_members (bmap : IMap) (point : Point) : ISet :=
  domain (intersect_range bmap (to_set (from_point point))).

(** The comparison made by the [assert] of that loop. *)
Definition group_is_convex (bmap : IMap) (point : Point) : bool :=
  is_equal (group_members bmap point)
           (to_set (convex_hull (group_members bmap point))).

(** The two rendering calls that follow the [assert]. *)
Definition render_group (bmap : IMap) (color vertex_color : string)
    (vertex_marker : string) (vertex_size : Z) (point : Point) : M unit :=
  let part_set := convex_hull (group_members bmap point) in
  plot_set_points (to_set part_set) vertex_color vertex_size
                  vertex_marker ;;
  plot_bset_shape part_set true color (Some vertex_color)
                  vertex_marker vertex_size.

(** The map handed to [plot_map] by [plot_domain]. *)
Definition rendered_dependences (domain_ : ISet) (dependences : IMap)
    (tiling : option IMap) : IMap :=
  let restricted :=
    intersect_domain (intersect_range dependences domain_) domain_ in
  match tiling with
  | Some tiling => subtract restricted (apply_range tiling (reverse tiling))
  | None => restricted
  end.

End Groups.

(** ** Kinds of calls and the calls of one shape *)

Definition is_plot (c : call) : bool :=
  match c with
  | Plot _ _ _ _ _ _ => true
  | _ => false
  end.

Definition is_arrow (c : call) : bool :=
  match c with
  | Annotate _ _ _ _ _ _ => true
  | _ => false
  end.

(** The arrow [plot_map] draws for the pair [a -> b] of coordinates. *)
Definition arrow_call (style : string) (width : Z) (color : string)
    (a b : coords) : call :=
  Annotate "" b "data" a "data" (ArrowProps style "arc3" 10 10 width color).

(** The vertex colour [plot_bset_shape] and [plot_map_as_groups] end up
    with. *)
Definition resolved_color (color : string) (vertex_color : option string)
  : string :=
  if truthy vertex_color then pop vertex_color color else color.

(** The calls of a successful [plot_bset_shape] on a basic set with the
    given vertices: the vertex markers if they are shown, then the closed
    polygon unless there is no vertex. *)
Definition shape_calls (vertices : list coords) (show_vertices : bool)
    (color : string) (vertex_color : option string) (vertex_marker : string)
    (vertex_size : Z) : list call :=
  (if show_vertices
   then [Plot (map (fun v => nth 0 v (0 # 1)) vertices)
              (map (fun v => nth 1 v (0 # 1)) vertices)
              vertex_marker vertex_size
              (resolved_color color vertex_color) None]
   else [])
  ++ match vertices with
     | [] => []
     | _ :: rest =>
         [AddPatch (vertices ++ [[0 # 1; 0 # 1]])
                   (MOVETO :: repeat LINETO (List.length rest) ++ [CLOSEPOLY])
                   color]
     end.

(** A computation that only appends calls satisfying [P], whatever the
    canvas it starts on. *)
Definition draws_only {A} (P : call -> bool) (m : M A) : Prop :=
  exists d r, (forall c, m c = (c ++ d, r)) /\ forallb P d = true.

(** A computation that only appends arrows between pairs and ends
    normally or with [ValueError]. *)
Definition arrows_or_value_error (style : string) (width : Z)
    (color : string) (m : M unit) : Prop :=
  exists d r,
    (forall c, m c = (c ++ d, r)) /\
    Forall (fun x => exists a b,
              List.length a = 2%nat /\ List.length b = 2%nat /\
              x = arrow_call style width color a b) d /\
    (r = Ok tt \/ r = Raise ValueError).

(** ** The monad: equations *)

Lemma bind_ret {A B} (a : A) (k : A -> M B) (c : canvas) :
  bind (ret a) k c = k a c.
Proof. reflexivity. Qed.

Lemma bind_emit {B} (d : call) (k : unit -> M B) (c : canvas) :
  bind (emit d) k c = k tt (c ++ [d]).
Proof. reflexivity. Qed.




(** ** Indexing the coordinate lists *)

Lemma comprehension_getitem_ok {A} (i : nat) (d : A) (l : list (list A)) :
  Forall (fun x => (i < List.length x)%nat) l ->
  comprehension (fun x => getitem x i) l = Ok (map (fun x => nth i x d) l).
Proof.
  induction 1 as [| x t Hx _ IH]; cbn [comprehension map].
  - reflexivity.
  - rewrite IH. unfold getitem.
    destruct (nth_error x i) as [a |] eqn:E.
    + cbn [result_bind]. now rewrite (nth_error_nth x i d E).
    + apply nth_error_None in E. lia.
Qed.

Lemma comprehension_getitem_raise {A} (i : nat) (l : list (list A)) :
  Exists (fun x => (List.length x <= i)%nat) l ->
  comprehension (fun x => getitem x i) l = Raise IndexError.
Proof.
  induction 1 as [x t Hx | x t _ IH]; cbn [comprehension].
  - unfold getitem. apply nth_error_None in Hx. now rewrite Hx.
  - rewrite IH. unfold getitem.
    now destruct (nth_error x i).
Qed.

Lemma comprehension_getitem_cases {A} (i : nat) (l : list (list A)) :
  comprehension (fun x => getitem x i) l = Raise IndexError \/
  exists ys, comprehension (fun x => getitem x i) l = Ok ys.
Proof.
  induction l as [| x t IH]; cbn [comprehension].
  - right. now exists [].
  - unfold getitem at 1 3. destruct (nth_error x i) as [a |].
    + destruct IH as [-> | [ys ->]]; cbn [result_bind]; eauto.
    + now left.
Qed.

Section PlotterFacts.

Context {G : Geometry} {Sup : Support G}.

Lemma plot_set_points_ok (s : ISet) color size marker c :
  Forall (fun p => (2 <= List.length (get_point_coordinates p))%nat)
         (foreach_point s) ->
  plot_set_points s color size marker c
  = (c ++ [Plot (map (fun p => nth 0 (get_point_coordinates p) (0 # 1))
                     (foreach_point s))
                (map (fun p => nth 1 (get_point_coordinates p) (0 # 1))
                     (foreach_point s))
                marker size color (Some 0%Z)],
     Ok tt).
Proof.
  intros H. unfold plot_set_points.
  assert (H0 : Forall (fun x : coords => (0 < List.length x)%nat)
                 (map get_point_coordinates (foreach_point s))).
  { apply Forall_map. eapply Forall_impl; [| exact H]. simpl. lia. }
  assert (H1 : Forall (fun x : coords => (1 < List.length x)%nat)
                 (map get_point_coordinates (foreach_point s))).
  { apply Forall_map. eapply Forall_impl; [| exact H]. simpl. lia. }
  unfold bind, lift.
  rewrite (comprehension_getitem_ok (0 # 1) H0).
  rewrite (comprehension_getitem_ok (0 # 1) H1).
  unfold emit. now rewrite !map_map.
Qed.

Lemma plot_set_points_raise (s : ISet) color size marker c :
  Exists (fun p => (List.length (get_point_coordinates p) < 2)%nat)
         (foreach_point s) ->
  plot_set_points s color size marker c = (c, Raise IndexError).
Proof.
  intros H. unfold plot_set_points, bind, lift.
  destruct (comprehension_getitem_cases 0
              (map get_point_coordinates (foreach_point s)))
    as [-> | [xs ->]]; [reflexivity |].
  rewrite comprehension_getitem_raise; [reflexivity |].
  apply Exists_map. eapply Exists_impl; [| exact H].
  intros p Hp. simpl in Hp |- *. lia.
Qed.

End PlotterFacts.

(** ** The reference model satisfies the laws *)

Module FiniteModelFacts.

Import FiniteModel.

Lemma memb_Fin (l : list point) (p : point) :
  memb (Fin l) p = true <-> In p l.
Proof.
  unfold memb. destruct (in_dec point_eq_dec p l); split;
    intros; try assumption; try reflexivity; try discriminate; contradiction.
Qed.

(** No finite list holds every point: one with more coordinates than
    all of them is missing. *)
Lemma universe_not_finite (l : list point) : exists p, ~ In p l.
Proof.
  exists (repeat 0%Z (Datatypes.S (list_max (map (@List.length Z) l)))).
  intros H.
  assert (Hle : (List.length
                   (repeat 0%Z (Datatypes.S (list_max (map (@List.length Z) l))))
                 <= list_max (map (@List.length Z) l))%nat).
  { pose proof (proj1 (list_max_le (map (@List.length Z) l)
                         (list_max (map (@List.length Z) l)))
                  (Nat.le_refl _)) as HF.
    rewrite Forall_forall in HF. apply HF.
    apply in_map_iff. eauto. }
  rewrite repeat_length in Hle. lia.
Qed.

Lemma finite_laws : GeometryLaws semantics.
Proof.
  split; cbn -[memb f_foreach_point].
  - intros [l0 |] l Hfin.
    + split; [apply NoDup_nodup |].
      intros p. cbn -[memb]. rewrite nodup_In. symmetry. apply memb_Fin.
    + destruct (universe_not_finite l) as [p Hp].
      exfalso. apply Hp, Hfin. reflexivity.
  - intros p q. rewrite memb_Fin. cbn. intuition congruence.
  - intros m y. unfold f_range. rewrite memb_Fin, in_map_iff. split.
    + intros [[x y'] [E H]]. cbn in E. subst. eauto.
    + intros [x H]. exists (x, y). auto.
  - intros m x. unfold f_domain. rewrite memb_Fin, in_map_iff. split.
    + intros [[x' y] [E H]]. cbn in E. subst. eauto.
    + intros [y H]. exists (x, y). auto.
  - intros m s x y. unfold f_intersect_range. rewrite filter_In. tauto.
  - intros m s x y. unfold f_intersect_domain. rewrite filter_In. tauto.
  - intros m t x z. unfold f_apply_range. rewrite in_flat_map. split.
    + intros [[x' y] [Hm H]]. apply in_map_iff in H.
      destruct H as [[y' z'] [E H]]. apply filter_In in H.
      destruct H as [Ht Hy]. cbn [fst snd] in *.
      destruct (point_eq_dec y y'); [| discriminate].
      inversion E; subst. eauto.
    + intros [y [Hm Ht]]. exists (x, y). split; [assumption |].
      apply in_map_iff. exists (y, z). split; [reflexivity |].
      apply filter_In. split; [assumption |]. cbn [fst snd].
      destruct (point_eq_dec y y); [reflexivity | contradiction].
  - intros m x y. unfold f_reverse. rewrite in_map_iff. split.
    + intros [[a b] [E H]]. cbn in E. inversion E; subst. assumption.
    + intros H. exists (y, x). auto.
  - intros m n x y. unfold f_subtract. rewrite filter_In.
    destruct (in_dec pair_eq_dec (x, y) n); intuition congruence.
Qed.

Lemma finite_transform_laws : TransformLaws semantics.
Proof.
  split; cbn -[memb].
  - intros s m q. unfold f_apply, f_range, f_intersect_domain.
    rewrite memb_Fin, in_map_iff. split.
    + intros [[p q'] [E H]]. cbn [snd] in E. subst q'.
      apply filter_In in H. cbn [fst] in H. exists p. tauto.
    + intros [p [Hs Hm]]. exists (p, q). split; [reflexivity |].
      apply filter_In. auto.
  - intros m t x' y. unfold f_apply_domain.
    pose proof (@reverse_spec geometry semantics finite_laws) as R.
    pose proof (@apply_range_spec geometry semantics finite_laws) as A.
    cbn in R, A. rewrite R, A. split.
    + intros [x [H1 H2]]. apply (proj1 (R m y x)) in H1. eauto.
    + intros [x [H1 H2]]. exists x.
      split; [now apply (proj2 (R m y x)) | assumption].
Qed.

End FiniteModelFacts.

(** ** Lists and enumerations *)

Lemma NoDup_all_equal {A} (l : list A) (b : A) :
  NoDup l -> (forall p, In p l <-> p = b) -> l = [b].
Proof.
  intros ND H. destruct l as [| x t].
  - exfalso. apply (proj2 (H b) eq_refl).
  - assert (x = b) by (apply H; now left). subst x.
    destruct t as [| y t]; [reflexivity |].
    assert (y = b) by (apply H; right; now left). subst y.
    inversion ND as [| ? ? Hn _]. exfalso. apply Hn. now left.
Qed.

Lemma comprehension_length {A B} (f : A -> result B) (l : list A) ys :
  comprehension f l = Ok ys -> List.length ys = List.length l.
Proof.
  revert ys. induction l as [| x t IH]; intros ys; cbn [comprehension].
  - intros E. now inversion E.
  - destruct (f x) as [y | e]; cbn [result_bind]; [| discriminate].
    destruct (comprehension f t) as [zs | e]; cbn [result_bind];
      [| discriminate].
    intros E. inversion E. cbn [List.length]. now rewrite (IH zs eq_refl).
Qed.

Lemma split_snoc {A B} (l : list (A * B)) (x : A) (y : B) :
  List.split (l ++ [(x, y)])
  = (fst (List.split l) ++ [x], snd (List.split l) ++ [y]).
Proof.
  induction l as [| [a b] t IH]; cbn [List.split app].
  - reflexivity.
  - rewrite IH. destruct (List.split t). reflexivity.
Qed.

Lemma for_each_calls {A} (f : A -> list call) (body : A -> M unit)
    (l : list A) (c : canvas) :
  (forall x c', In x l -> body x c' = (c' ++ f x, Ok tt)) ->
  for_each l body c = (c ++ flat_map f l, Ok tt).
Proof.
  revert c. induction l as [| x t IH]; intros c H; cbn [for_each flat_map].
  - unfold ret. now rewrite app_nil_r.
  - unfold bind. rewrite (H x c) by now left.
    rewrite IH by (intros y c' Hy; apply H; now right).
    now rewrite <- app_assoc.
Qed.

Lemma forallb_false_Exists {A} (f : A -> bool) (l : list A) :
  forallb f l = false -> Exists (fun x => f x = false) l.
Proof.
  induction l as [| x t IH]; cbn [forallb]; [discriminate |].
  destruct (f x) eqn:E; cbn [andb].
  - intros H. right. now apply IH.
  - intros _. now left.
Qed.

Lemma foreach_callback_calls {A} (f : A -> list call) (body : A -> M unit)
    (l : list A) (c : canvas) :
  (forall x c', In x l -> body x c' = (c' ++ f x, Ok tt)) ->
  foreach_callback l body c = (c ++ flat_map f l, Ok tt).
Proof.
  revert c. induction l as [| x t IH]; intros c H;
    cbn [foreach_callback flat_map].
  - unfold ret. now rewrite app_nil_r.
  - rewrite (H x c) by now left.
    rewrite IH by (intros y c' Hy; apply H; now right).
    now rewrite <- app_assoc.
Qed.

Lemma map_flat_map_pairs {A B C} (f : A -> B -> C) (g : A -> list B)
    (l : list A) :
  flat_map (fun x => map (f x) (g x)) l
  = map (fun xy => f (snd xy) (fst xy))
        (flat_map (fun x => map (fun y => (y, x)) (g x)) l).
Proof.
  induction l as [| x t IH]; cbn [flat_map].
  - reflexivity.
  - rewrite map_app, map_map, IH. reflexivity.
Qed.

Lemma NoDup_pairs {A B} (g : A -> list B) (l : list A) :
  NoDup l -> (forall x, NoDup (g x)) ->
  NoDup (flat_map (fun x => map (fun y => (y, x)) (g x)) l).
Proof.
  intros Hl Hg. induction Hl as [| x t Hx _ IH]; cbn [flat_map].
  - constructor.
  - apply NoDup_app.
    + specialize (Hg x). induction Hg as [| y u Hy _ IHu]; cbn [map].
      * constructor.
      * constructor; [| exact IHu].
        intros H. apply in_map_iff in H. destruct H as [z [E Hz]].
        inversion E. now subst.
    + exact IH.
    + intros [y x'] H1 H2. apply in_map_iff in H1.
      destruct H1 as [z [E _]]. inversion E; subst.
      apply in_flat_map in H2. destruct H2 as [x'' [Hin H2]].
      apply in_map_iff in H2. destruct H2 as [z' [E' _]].
      inversion E'; subst. contradiction.
Qed.

Lemma In_pairs {A B} (g : A -> list B) (l : list A) (x : A) (y : B) :
  In (y, x) (flat_map (fun x => map (fun y => (y, x)) (g x)) l)
  <-> In x l /\ In y (g x).
Proof.
  rewrite in_flat_map. split.
  - intros [x' [Hx H]]. apply in_map_iff in H. destruct H as [y' [E Hy]].
    inversion E; subst. auto.
  - intros [Hx Hy]. exists x. split; [assumption |].
    apply in_map_iff. eauto.
Qed.

Lemma flat_map_singleton {A B} (f : A -> B) (l : list A) :
  flat_map (fun x => [f x]) l = map f l.
Proof.
  induction l as [| x t IH]; cbn [flat_map map app]; [| rewrite IH];
    reflexivity.
Qed.

Lemma annotate_pairs text xy xycoords xytext textcoords props c :
  List.length xy = 2%nat -> List.length xytext = 2%nat ->
  annotate text xy xycoords xytext textcoords props c
  = (c ++ [Annotate text xy xycoords xytext textcoords props], Ok tt).
Proof.
  intros H1 H2. unfold annotate, is_pair. now rewrite H1, H2.
Qed.

Section MapFacts.

Context {G : Geometry} {Sup : Support G} {Sem : Semantics G}.
Context (L : GeometryLaws Sem).

Lemma foreach_point_singleton (s : ISet) (b : Point) :
  (forall p, set_mem s p <-> p = b) -> foreach_point s = [b].
Proof.
  intros H.
  destruct (foreach_point_spec s [b]) as [ND HI].
  - intros p Hp. left. symmetry. now apply H.
  - apply NoDup_all_equal; [assumption |].
    intros p. rewrite HI. apply H.
Qed.

(** The members of the group of a range point are the points the map
    relates to it. *)
Lemma group_members_spec (m : IMap) (b x : Point) :
  set_mem (group_members m b) x <-> map_mem m x b.
Proof.
  unfold group_members. rewrite domain_spec. split.
  - intros [y Hy]. apply intersect_range_spec in Hy.
    destruct Hy as [Hm Hb]. apply from_point_spec in Hb. now subst.
  - intros Hm. exists b. apply intersect_range_spec.
    split; [assumption |]. now apply from_point_spec.
Qed.

Lemma plot_map_run (m : IMap) style width color c :
  (forall start, In start (foreach_point (range m)) ->
     List.length (get_point_coordinates start) = 2%nat /\
     forall end_, In end_ (foreach_point (group_members m start)) ->
       List.length (get_point_coordinates end_) = 2%nat) ->
  plot_map m style width color c
  = (c ++ flat_map (fun start =>
            map (fun end_ =>
                   Annotate "" (get_point_coordinates start) "data"
                            (get_point_coordinates end_) "data"
                            (ArrowProps style "arc3" 10 10 width color))
                (foreach_point (group_members m start)))
            (foreach_point (range m)),
     Ok tt).
Proof.
  intros H. unfold plot_map. apply for_each_calls.
  intros start c' Hs. destruct (H start Hs) as [Ls He].
  rewrite <- flat_map_singleton. apply for_each_calls.
  intros end_ c'' Hin. unfold _plot_arrow.
  cbn [pop kw_style kw_width kw_color].
  apply annotate_pairs; [exact Ls | exact (He end_ Hin)].
Qed.

Lemma rendered_dependences_spec (d : ISet) (deps : IMap)
    (tiling : option IMap) (a b : Point) :
  map_mem (rendered_dependences d deps tiling) a b <->
  map_mem deps a b /\ set_mem d a /\ set_mem d b /\
  match tiling with
  | Some t => ~ exists tile, map_mem t a tile /\ map_mem t b tile
  | None => True
  end.
Proof.
  unfold rendered_dependences. destruct tiling as [t |].
  - rewrite subtract_spec, intersect_domain_spec, intersect_range_spec,
      apply_range_spec.
    split.
    + intros [[[Hm Hb] Ha] Hn]. repeat split; try assumption.
      intros [tile [Ta Tb]]. apply Hn. exists tile.
      split; [assumption |]. now apply reverse_spec.
    + intros [Hm [Ha [Hb Hn]]]. repeat split; try assumption.
      intros [tile [Ta Tb]]. apply Hn. exists tile.
      split; [assumption |]. now apply reverse_spec.
  - rewrite intersect_domain_spec, intersect_range_spec. tauto.
Qed.

End MapFacts.

Section GroupFacts.

Context {G : Geometry} {Sup : Support G}.

(** The body of the loop of [plot_map_as_groups], as a function of the
    range point. *)
Lemma plot_map_as_groups_unfold (bmap : IMap) color vertex_color marker
    size c :
  plot_map_as_groups bmap color vertex_color marker size c
  = for_each (foreach_point (range bmap)) (fun point =>
      assert_ (group_is_convex bmap point) None ;;
      render_group bmap color
        (if negb (truthy vertex_color) then color
         else pop vertex_color color)
        marker size point) c.
Proof. reflexivity. Qed.



End GroupFacts.

(** ** The claims *)

(** C1, as the code has it: for every map that relates exactly one pair
    [a -> b] of points with two coordinates each, [plot_map] draws exactly
    one arrow; its tail is at the coordinates of the domain point [a] and
    its head at the coordinates of the range point [b], so arrows run from
    the input to the output element. *)
Theorem plot_map_single_pair
    (G : Geometry) (Sup : Support G) (Sem : Semantics G)
    (L : GeometryLaws Sem) (m : IMap) (a b : Point)
    (style : string) (width : Z) (color : string) (c : canvas) :
  (forall x y, map_mem m x y <-> x = a /\ y = b) ->
  List.length (get_point_coordinates a) = 2%nat ->
  List.length (get_point_coordinates b) = 2%nat ->
  exists arrow,
    plot_map m style width color c = (c ++ [arrow], Ok tt) /\
    arrow = Annotate "" (get_point_coordinates b) "data"
                     (get_point_coordinates a) "data"
                     (ArrowProps style "arc3" 10 10 width color) /\
    arrow_tail arrow = Some (get_point_coordinates a) /\
    arrow_head arrow = Some (get_point_coordinates b).
Proof.
  intros H La Lb.
  eexists. split; [| split; [reflexivity | split; reflexivity]].
  assert (R : foreach_point (range m) = [b]).
  { apply (foreach_point_singleton L). intros y. rewrite range_spec. split.
    - intros [x Hx]. now apply H in Hx.
    - intros ->. exists a. now apply H. }
  assert (D : foreach_point (group_members m b) = [a]).
  { apply (foreach_point_singleton L). intros x.
    rewrite (group_members_spec L). split.
    - intros Hx. now apply H in Hx.
    - intros ->. now apply H. }
  rewrite plot_map_run.
  - rewrite R. cbn [flat_map]. rewrite D. reflexivity.
  - rewrite R. intros start [<- | []]. split; [exact Lb |].
    rewrite D. intros end_ [<- | []]. exact La.
Qed.

(** C2: for every unbounded basic set [plot_bset_shape] fails with the
    assertion "Expected bounded set" and leaves the canvas as it was,
    whatever the vertex query of the helper module would have returned:
    the query is not reached. *)
Theorem plot_bset_shape_unbounded
    (G : Geometry) (Sup : Support G) (bset_data : BasicSet)
    (show_vertices : bool) (color : string) (vertex_color : option string)
    (vertex_marker : string) (vertex_size : Z) (c : canvas) :
  bset_is_bounded bset_data = false ->
  plot_bset_shape bset_data show_vertices color vertex_color vertex_marker
                  vertex_size c
  = (c, Raise (AssertionError (Some "Expected bounded set"%string))) /\
  forall Sup' : Support G,
    plot_bset_shape (Sup := Sup') bset_data show_vertices color vertex_color
                    vertex_marker vertex_size c
    = plot_bset_shape (Sup := Sup) bset_data show_vertices color
                      vertex_color vertex_marker vertex_size c.
Proof.
  intros H. unfold plot_bset_shape. rewrite H. split; [reflexivity |].
  intros Sup'. reflexivity.
Qed.

(** C3: for every bounded basic set without vertices [plot_bset_shape]
    plots the (empty) vertex lists when [show_vertices] is set and returns
    without adding a polygon patch to the canvas. *)
Theorem plot_bset_shape_no_vertices
    (G : Geometry) (Sup : Support G) (bset_data : BasicSet)
    (show_vertices : bool) (color : string) (vertex_color : option string)
    (vertex_marker : string) (vertex_size : Z) (c : canvas) :
  bset_is_bounded bset_data = true ->
  bset_get_vertex_coordinates bset_data = [] ->
  plot_bset_shape bset_data show_vertices color vertex_color vertex_marker
                  vertex_size c
  = (c ++ (if show_vertices
           then [Plot [] [] vertex_marker vertex_size
                      (if truthy vertex_color then pop vertex_color color
                       else color) None]
           else []),
     Ok tt) /\
  filter is_patch
         (issued (plot_bset_shape bset_data show_vertices color vertex_color
                                  vertex_marker vertex_size) c) = [].
Proof.
  intros Hb Hv.
  assert (E : plot_bset_shape bset_data show_vertices color vertex_color
                vertex_marker vertex_size c
              = (c ++ (if show_vertices
                       then [Plot [] [] vertex_marker vertex_size
                               (if truthy vertex_color
                                then pop vertex_color color else color) None]
                       else []), Ok tt)).
  { unfold plot_bset_shape. rewrite Hb, Hv.
    destruct show_vertices; destruct (truthy vertex_color);
      cbn; unfold ret; now rewrite ?app_nil_r. }
  split; [exact E |].
  unfold issued. rewrite E. cbn [fst].
  rewrite skipn_app, skipn_all, Nat.sub_diag. cbn [skipn app].
  now destruct show_vertices.
Qed.


(** C5, as the code has it: for every domain set whose points, and whose
    hull's points, have at least two coordinates, [plot_domain] with the
    background enabled and without dependences, tiling and transform
    configures the canvas and then draws exactly two things in this order:
    the points of the rectangular hull widened by 1 in "lightgray", then
    the points of the domain in the vertex style. *)
Theorem plot_domain_background_then_domain
    (G : Geometry) (Sup : Support G) (domain_ : ISet)
    (tile_color vertex_color : string) (vertex_size : Z)
    (vertex_marker : string) (c : canvas) :
  let hull := get_rectangular_hull domain_ 1 in
  let xs := fun s : ISet =>
    map (fun p => nth 0 (get_point_coordinates p) (0 # 1)) (foreach_point s) in
  let ys := fun s : ISet =>
    map (fun p => nth 1 (get_point_coordinates p) (0 # 1)) (foreach_point s) in
  let background_plot :=
    Plot (xs hull) (ys hull) vertex_marker vertex_size "lightgray" (Some 0%Z) in
  let domain_plot :=
    Plot (xs domain_) (ys domain_) vertex_marker vertex_size vertex_color
         (Some 0%Z) in
  Forall (fun p => (2 <= List.length (get_point_coordinates p))%nat)
         (foreach_point hull) ->
  Forall (fun p => (2 <= List.length (get_point_coordinates p))%nat)
         (foreach_point domain_) ->
  plot_domain domain_ None None None tile_color vertex_color vertex_size
              vertex_marker true c
  = (c ++ [Autoscale true true; TightLayout; background_plot; domain_plot],
     Ok tt) /\
  filter is_drawing
         (issued (plot_domain domain_ None None None tile_color vertex_color
                              vertex_size vertex_marker true) c)
  = [background_plot; domain_plot].
Proof.
  intros hull xs ys background_plot domain_plot Hh Hd.
  assert (E : plot_domain domain_ None None None tile_color vertex_color
                vertex_size vertex_marker true c
              = (c ++ [Autoscale true true; TightLayout; background_plot;
                       domain_plot], Ok tt)).
  { unfold plot_domain. rewrite !bind_emit. cbv zeta. fold hull.
    unfold bind.
    rewrite (plot_set_points_ok hull "lightgray" vertex_size vertex_marker
               _ Hh).
    rewrite (plot_set_points_ok domain_ vertex_color vertex_size
               vertex_marker _ Hd).
    unfold ret. rewrite <- !app_assoc. reflexivity. }
  split; [exact E |].
  unfold issued. rewrite E. cbn [fst].
  rewrite skipn_app, skipn_all, Nat.sub_diag. reflexivity.
Qed.

(** C6: with a transform [space], [plot_domain] computes the hull and
    draws everything from the transformed inputs.  Its run is the run of
    the rendering steps on the domain with [space] applied, on the
    dependences with [space] applied to their range and to their domain,
    and on the tiling with [space] applied to its domain; these are the
    images under [space] of the points of the domain, of both endpoints of
    every dependence, and of the domain point of every tiling pair.  With
    neither dependences nor tiling the points plotted are those of the
    transformed domain, after those of the hull of the transformed
    domain. *)
Theorem plot_domain_transform
    (G : Geometry) (Sup : Support G) (Sem : Semantics G)
    (L : GeometryLaws Sem) (T : TransformLaws Sem) (domain_ : ISet)
    (dependences tiling : option IMap) (space : IMap)
    (tile_color vertex_color : string) (vertex_size : Z)
    (vertex_marker : string) (background : bool) (c : canvas) :
  let d := apply domain_ space in
  let deps :=
    option_map (fun x => apply_domain (apply_range x space) space)
               dependences in
  let til := option_map (fun t => apply_domain t space) tiling in
  let hull := get_rectangular_hull d 1 in
  let points_plot := fun (s : ISet) (color : string) =>
    Plot (map (fun p => nth 0 (get_point_coordinates p) (0 # 1))
              (foreach_point s))
         (map (fun p => nth 1 (get_point_coordinates p) (0 # 1))
              (foreach_point s))
         vertex_marker vertex_size color (Some 0%Z) in
  plot_domain domain_ dependences tiling (Some space) tile_color
              vertex_color vertex_size vertex_marker background c
  = (emit (Autoscale true true) ;;
     emit TightLayout ;;
     (if background
      then plot_set_points hull "lightgray" vertex_size vertex_marker
      else ret tt) ;;
     plot_set_points d vertex_color vertex_size vertex_marker ;;
     match deps with
     | Some x => plot_map (rendered_dependences d x til) "->" 1 "gray"
     | None => ret tt
     end ;;
     match til with
     | Some t => plot_map_as_groups (intersect_domain t d) tile_color
                                    (Some vertex_color) vertex_marker
                                    vertex_size
     | None => ret tt
     end) c /\
  (forall q, set_mem d q <-> exists p, set_mem domain_ p /\ map_mem space p q) /\
  (forall x a' b',
      map_mem (apply_domain (apply_range x space) space) a' b' <->
      exists a b, map_mem x a b /\ map_mem space a a' /\ map_mem space b b') /\
  (forall t a' tile,
      map_mem (apply_domain t space) a' tile <->
      exists a, map_mem t a tile /\ map_mem space a a') /\
  (dependences = None -> tiling = None ->
   Forall (fun p => (2 <= List.length (get_point_coordinates p))%nat)
          (foreach_point d) ->
   (background = true ->
    Forall (fun p => (2 <= List.length (get_point_coordinates p))%nat)
           (foreach_point hull)) ->
   plot_domain domain_ dependences tiling (Some space) tile_color
               vertex_color vertex_size vertex_marker background c
   = (c ++ [Autoscale true true; TightLayout]
        ++ (if background then [points_plot hull "lightgray"%string] else [])
        ++ [points_plot d vertex_color],
      Ok tt)).
Proof.
  intros d deps til hull points_plot.
  split; [destruct dependences, tiling; reflexivity |].
  split; [intros q; apply apply_spec |].
  split.
  { intros x a' b'. rewrite apply_domain_spec. split.
    - intros [a [H1 H2]]. apply apply_range_spec in H1.
      destruct H1 as [b [H1 H3]]. exists a, b. auto.
    - intros [a [b [H1 [H2 H3]]]]. exists a. split; [| assumption].
      apply apply_range_spec. eauto. }
  split; [intros t a' tile; apply apply_domain_spec |].
  intros -> -> Hd Hh. unfold plot_domain. cbn [option_map].
  rewrite !bind_emit. fold d. fold hull. unfold bind.
  destruct background.
  - rewrite (plot_set_points_ok _ _ _ _ _ (Hh eq_refl)).
    rewrite (plot_set_points_ok _ _ _ _ _ Hd).
    unfold ret. now rewrite <- !app_assoc.
  - unfold ret at 1.
    rewrite (plot_set_points_ok _ _ _ _ _ Hd).
    unfold ret. now rewrite <- !app_assoc.
Qed.

(** C7: when dependences are given, the map [plot_domain] hands to
    [plot_map], after the points of the domain are plotted, relates [a] to
    [b] exactly when the (transformed) dependences do, both [a] and [b] lie
    in the (transformed) domain and, if a tiling is given, no tile holds
    both [a] and [b]. *)
Theorem plot_domain_dependences
    (G : Geometry) (Sup : Support G) (Sem : Semantics G)
    (L : GeometryLaws Sem) (domain_ : ISet) (dependences : IMap)
    (tiling space : option IMap) (tile_color vertex_color : string)
    (vertex_size : Z) (vertex_marker : string) (background : bool)
    (c : canvas) :
  let d := match space with
           | Some sp => apply domain_ sp
           | None => domain_
           end in
  let deps := match space with
              | Some sp => apply_domain (apply_range dependences sp) sp
              | None => dependences
              end in
  let til := match space with
             | Some sp => option_map (fun t => apply_domain t sp) tiling
             | None => tiling
             end in
  plot_domain domain_ (Some dependences) tiling space tile_color
              vertex_color vertex_size vertex_marker background c
  = (emit (Autoscale true true) ;;
     emit TightLayout ;;
     (if background
      then plot_set_points (get_rectangular_hull d 1) "lightgray"
                           vertex_size vertex_marker
      else ret tt) ;;
     plot_set_points d vertex_color vertex_size vertex_marker ;;
     plot_map (rendered_dependences d deps til) "->" 1 "gray" ;;
     match til with
     | Some t => plot_map_as_groups (intersect_domain t d) tile_color
                                    (Some vertex_color) vertex_marker
                                    vertex_size
     | None => ret tt
     end) c /\
  forall a b,
    map_mem (rendered_dependences d deps til) a b <->
    map_mem deps a b /\ set_mem d a /\ set_mem d b /\
    match til with
    | Some t => ~ exists tile, map_mem t a tile /\ map_mem t b tile
    | None => True
    end.
Proof.
  intros d deps til. split.
  - destruct space, tiling; reflexivity.
  - intros a b. apply (rendered_dependences_spec L).
Qed.

(** C9: [plot_set_points] reads coordinates 0 and 1 of every point and
    nothing else.  If every point of the set has at least two coordinates,
    one [Plot] call with exactly these two coordinate lists is issued; if
    the set is not empty and its points have fewer than two coordinates,
    the call ends with [IndexError], which is not an assertion failure, and
    draws nothing. *)
Theorem plot_set_points_first_two_coordinates
    (G : Geometry) (Sup : Support G) (set_data : ISet) (color : string)
    (size : Z) (marker : string) (c : canvas) :
  (Forall (fun p => (2 <= List.length (get_point_coordinates p))%nat)
          (foreach_point set_data) ->
   plot_set_points set_data color size marker c
   = (c ++ [Plot (map (fun p => nth 0 (get_point_coordinates p) (0 # 1))
                      (foreach_point set_data))
                 (map (fun p => nth 1 (get_point_coordinates p) (0 # 1))
                      (foreach_point set_data))
                 marker size color (Some 0%Z)],
      Ok tt)) /\
  (foreach_point set_data <> [] ->
   Forall (fun p => (List.length (get_point_coordinates p) < 2)%nat)
          (foreach_point set_data) ->
   plot_set_points set_data color size marker c = (c, Raise IndexError) /\
   forall msg, Raise (A := unit) IndexError <> Raise (AssertionError msg)).
Proof.
  split.
  - apply plot_set_points_ok.
  - intros Hne Hall. split; [| discriminate].
    apply plot_set_points_raise.
    destruct (foreach_point set_data) as [| p t]; [congruence |].
    inversion Hall; subst. now left.
Qed.

(** C10: [plot_set_shapes] does not look at its positional arguments: on
    a bounded set it is the callback loop of islpy over the basic sets,
    calling [plot_bset_shape] with the keyword options (or their defaults)
    only, so that any two lists of positional arguments give the same
    run. *)
Theorem plot_set_shapes_ignores_positional
    (G : Geometry) (Sup : Support G) (set_data : ISet)
    (args : list pyval) (kwargs : shape_kwargs) (c : canvas) :
  is_bounded set_data = true ->
  plot_set_shapes set_data args kwargs c
  = foreach_callback (foreach_basic_set set_data) (fun x =>
      plot_bset_shape x
        (pop (kw_show_vertices kwargs) true)
        (pop (kw_shape_color kwargs) "gray"%string)
        (kw_vertex_color kwargs)
        (pop (kw_vertex_marker kwargs) "o"%string)
        (pop (kw_vertex_size kwargs) 10%Z)) c /\
  forall args' : list pyval,
    plot_set_shapes set_data args' kwargs c
    = plot_set_shapes set_data args kwargs c.
Proof.
  intros H. unfold plot_set_shapes. rewrite H. split; reflexivity.
Qed.

(** ** The claims on concrete inputs *)

Import FiniteModel FiniteModelFacts Examples.

(** C1, as the claim states it, fails on the map [{ (0,0) -> (1,1) }]:
    the one arrow drawn does not have its tail at (1,1) and its head at
    (0,0). *)
Lemma plot_map_not_range_to_domain :
  ~ exists arrow,
      plot_map (G := geometry) one_pair "->" 1 "black" [] = ([arrow], Ok tt) /\
      arrow_tail arrow = Some (f_get_point_coordinates [1; 1]%Z) /\
      arrow_head arrow = Some (f_get_point_coordinates [0; 0]%Z).
Proof.
  intros (arrow & E & T & _). vm_compute in E.
  inversion E; subst arrow. vm_compute in T. discriminate T.
Qed.

Lemma plot_map_single_pair_witness :
  (forall x y : point,
      In (x, y) one_pair <-> x = [0; 0]%Z /\ y = [1; 1]%Z) /\
  exists arrow,
    plot_map (G := geometry) one_pair "->" 1 "black" [] = ([arrow], Ok tt) /\
    arrow_tail arrow = Some (f_get_point_coordinates [0; 0]%Z) /\
    arrow_head arrow = Some (f_get_point_coordinates [1; 1]%Z).
Proof.
  assert (H : forall x y : point,
             In (x, y) one_pair <-> x = [0; 0]%Z /\ y = [1; 1]%Z).
  { intros x y. unfold one_pair. cbn [In]. split.
    - intros [E | []]. inversion E. auto.
    - intros [-> ->]. now left. }
  split; [exact H |].
  destruct (@plot_map_single_pair geometry support semantics finite_laws
              one_pair [0; 0]%Z [1; 1]%Z "->" 1%Z "black" [] H
              eq_refl eq_refl)
    as (arrow & E & _ & T & Hd).
  exists arrow. repeat split; assumption.
Defined.

Lemma plot_bset_shape_unbounded_witness :
  f_is_bounded Univ = false /\
  plot_bset_shape (G := geometry) Univ true "gray" None "o" 10 []
  = ([], Raise (AssertionError (Some "Expected bounded set"%string))).
Proof.
  split; [reflexivity |].
  apply (@plot_bset_shape_unbounded geometry support Univ true "gray" None
           "o" 10%Z [] eq_refl).
Defined.

Lemma plot_bset_shape_no_vertices_witness :
  plot_bset_shape (G := geometry) (Fin []) true "gray" (Some "red"%string)
                  "o" 10 []
  = ([Plot [] [] "o" 10 "red" None], Ok tt).
Proof.
  apply (@plot_bset_shape_no_vertices geometry support (Fin []) true "gray"
           (Some "red"%string) "o" 10%Z [] eq_refl eq_refl).
Defined.


(** C5, as the claim states it, fails on a one dimensional domain: the
    call ends with [IndexError] and has plotted nothing. *)
Lemma plot_domain_line_plots_nothing :
  plot_domain (G := geometry) line None None None "blue" "black" 10 "o"
              true []
  = ([Autoscale true true; TightLayout], Raise IndexError) /\
  filter is_drawing
         (issued (plot_domain (G := geometry) line None None None "blue"
                              "black" 10 "o" true) []) = [].
Proof. split; vm_compute; reflexivity. Qed.

Lemma plot_domain_background_then_domain_witness :
  filter is_drawing
    (issued (plot_domain (G := geometry) (Fin [[0; 0]%Z]) None None None
                         "blue" "black" 10 "o" true) [])
  = [Plot [-1 # 1; -1 # 1; -1 # 1; 0 # 1; 0 # 1; 0 # 1; 1 # 1; 1 # 1; 1 # 1]
          [-1 # 1; 0 # 1; 1 # 1; -1 # 1; 0 # 1; 1 # 1; -1 # 1; 0 # 1; 1 # 1]
          "o" 10 "lightgray" (Some 0%Z);
     Plot [0 # 1] [0 # 1] "o" 10 "black" (Some 0%Z)].
Proof.
  refine (proj2 (@plot_domain_background_then_domain geometry support
                   (Fin [[0; 0]%Z]) "blue" "black" 10%Z "o" [] _ _)).
  - vm_compute. repeat constructor.
  - vm_compute. repeat constructor.
Defined.

Lemma plot_domain_transform_witness :
  plot_domain (G := geometry) row None None (Some shift_up) "blue" "black"
              10 "o" false []
  = ([Autoscale true true; TightLayout;
      Plot [0 # 1; 1 # 1; 2 # 1; 3 # 1] [1 # 1; 1 # 1; 1 # 1; 1 # 1]
           "o" 10 "black" (Some 0%Z)],
     Ok tt).
Proof.
  destruct (@plot_domain_transform geometry support semantics finite_laws
              finite_transform_laws row None None shift_up "blue" "black"
              10%Z "o" false []) as (_ & _ & _ & _ & H).
  apply H; try reflexivity.
  - vm_compute. repeat constructor.
  - discriminate.
Defined.

Lemma plot_domain_dependences_witness :
  (In ([1; 0]%Z, [2; 0]%Z)
      (rendered_dependences (G := geometry) row row_dependences
                            (Some row_tiling))) /\
  ~ In ([0; 0]%Z, [1; 0]%Z)
       (rendered_dependences (G := geometry) row row_dependences
                             (Some row_tiling)).
Proof.
  destruct (@plot_domain_dependences geometry support semantics finite_laws
              row row_dependences (Some row_tiling) None "blue" "black"
              10%Z "o" false []) as [_ Hmem].
  split.
  - apply (Hmem [1; 0]%Z [2; 0]%Z). vm_compute.
    repeat split; auto.
    intros (tile & [T1 | [T1 | [T1 | [T1 | []]]]]
                 & [T2 | [T2 | [T2 | [T2 | []]]]]); congruence.
  - intros H. apply (Hmem [0; 0]%Z [1; 0]%Z) in H.
    destruct H as (_ & _ & _ & Hn). apply Hn. exists [0%Z].
    vm_compute. auto.
Defined.

Lemma plot_set_points_first_two_coordinates_witness :
  plot_set_points (G := geometry) (Fin [[0; 0; 7]; [1; 2; 9]]%Z) "black"
                  10 "o" []
  = ([Plot [0 # 1; 1 # 1] [0 # 1; 2 # 1] "o" 10 "black" (Some 0%Z)], Ok tt) /\
  plot_set_points (G := geometry) line "black" 10 "o" []
  = ([], Raise IndexError).
Proof.
  split.
  - refine (proj1 (@plot_set_points_first_two_coordinates geometry support
                     (Fin [[0; 0; 7]; [1; 2; 9]]%Z) "black" 10%Z "o" []) _).
    vm_compute. repeat constructor.
  - refine (proj1 (proj2 (@plot_set_points_first_two_coordinates geometry
                            support line "black" 10%Z "o" []) _ _)).
    + discriminate.
    + vm_compute. repeat constructor.
Defined.

Lemma plot_set_shapes_ignores_positional_witness :
  plot_set_shapes (G := geometry) row [PyStr "red"; PyInt 3]
                  (ShapeKwargs None None None None None) []
  = plot_set_shapes (G := geometry) row []
                    (ShapeKwargs None None None None None) [].
Proof.
  apply (proj2 (@plot_set_shapes_ignores_positional geometry support row
                  [] (ShapeKwargs None None None None None) [] eq_refl)).
Defined.

(** ** Further runs on the reference model *)

(** The points (0,0) and (1,2) give one [Plot] call over both. *)
Example plot_set_points_two_points :
  plot_set_points (G := geometry) (Fin [[0; 0]; [1; 2]]%Z) "black" 10 "o" []
  = ([Plot [0 # 1; 1 # 1] [0 # 1; 2 # 1] "o" 10 "black" (Some 0%Z)], Ok tt).
Proof. vm_compute. reflexivity. Qed.

(** The square: its four corners are plotted, then the closed polygon
    through them is added. *)
Example plot_bset_shape_square :
  plot_bset_shape (G := geometry) square true "gray" None "o" 10 []
  = ([Plot [0 # 1; 2 # 1; 2 # 1; 0 # 1] [0 # 1; 0 # 1; 2 # 1; 2 # 1]
           "o" 10 "gray" None;
      AddPatch [[0 # 1; 0 # 1]; [2 # 1; 0 # 1]; [2 # 1; 2 # 1];
                [0 # 1; 2 # 1]; [0 # 1; 0 # 1]]
               [MOVETO; LINETO; LINETO; LINETO; CLOSEPOLY] "gray"],
     Ok tt).
Proof. vm_compute. reflexivity. Qed.

(** The row with its dependences and tiling: of the four dependences only
    (1,0) -> (2,0) crosses a tile border inside the domain, and its arrow
    points from (1,0) to (2,0). *)
Example plot_domain_row :
  map (fun d => (arrow_tail d, arrow_head d))
      (filter (fun d => negb (is_patch d))
         (skipn 3
            (issued (plot_domain (G := geometry) row (Some row_dependences)
                                 (Some row_tiling) None "blue" "black" 10
                                 "o" false) [])))
  = [(Some [1 # 1; 0 # 1], Some [2 # 1; 0 # 1]);
     (None, None); (None, None); (None, None); (None, None)] /\
  outcome (plot_domain (G := geometry) row (Some row_dependences)
                       (Some row_tiling) None "blue" "black" 10 "o" false)
          [] = Ok tt.
Proof. split; vm_compute; reflexivity. Qed.

(** A dented tile after a convex one: the convex tile is rendered, the
    dented one ends the call. *)
Example plot_map_as_groups_second_tile_dented :
  plot_map_as_groups (G := geometry)
    [([0; 0], [0]); ([1; 0], [0]); ([0; 1], [1]); ([2; 1], [1])]%Z
    "blue" None "o" 10 []
  = ([Plot [0 # 1; 1 # 1] [0 # 1; 0 # 1] "o" 10 "blue" (Some 0%Z);
      Plot [0 # 1; 1 # 1] [0 # 1; 0 # 1] "o" 10 "blue" None;
      AddPatch [[0 # 1; 0 # 1]; [1 # 1; 0 # 1]; [0 # 1; 0 # 1]]
               [MOVETO; LINETO; CLOSEPOLY] "blue"],
     Raise (AssertionError None)).
Proof. vm_compute. reflexivity. Qed.

(** ** Beyond the claims: helper lemmas *)

(** *** Computations that draw only some kinds of calls *)

Lemma draws_only_ret {A} P (a : A) : draws_only P (ret a).
Proof.
  exists [], (Ok a). split; [| reflexivity].
  intros c. unfold ret. now rewrite app_nil_r.
Qed.

Lemma draws_only_raise {A} P (e : exn) : draws_only P (raise (A := A) e).
Proof.
  exists [], (Raise e). split; [| reflexivity].
  intros c. unfold raise. now rewrite app_nil_r.
Qed.

Lemma draws_only_lift {A} P (r : result A) : draws_only P (lift r).
Proof.
  exists [], r. split; [| reflexivity].
  intros c. unfold lift. now rewrite app_nil_r.
Qed.

Lemma draws_only_emit (P : call -> bool) (d : call) :
  P d = true -> draws_only P (emit d).
Proof.
  intros H. exists [d], (Ok tt). split; [reflexivity |].
  cbn. now rewrite H.
Qed.

Lemma draws_only_bind {A B} P (m : M A) (k : A -> M B) :
  draws_only P m -> (forall a, draws_only P (k a)) ->
  draws_only P (bind m k).
Proof.
  intros (d & r & Hm & Hd) Hk. destruct r as [a | e].
  - destruct (Hk a) as (d' & r' & Hka & Hd').
    exists (d ++ d'), r'. split.
    + intros c. unfold bind. rewrite Hm, Hka. now rewrite app_assoc.
    + now rewrite forallb_app, Hd, Hd'.
  - exists d, (Raise e). split; [| assumption].
    intros c. unfold bind. now rewrite Hm.
Qed.

Lemma draws_only_assert P (cond : bool) (msg : option string) :
  draws_only P (assert_ cond msg).
Proof.
  unfold assert_. destruct cond;
    [apply draws_only_ret | apply draws_only_raise].
Qed.

Lemma draws_only_for_each {A} P (l : list A) (body : A -> M unit) :
  (forall x, draws_only P (body x)) -> draws_only P (for_each l body).
Proof.
  intros Hb. induction l as [| x t IH]; cbn [for_each].
  - apply draws_only_ret.
  - apply draws_only_bind; [apply Hb | intros _; exact IH].
Qed.

Lemma draws_only_weaken {A} (P Q : call -> bool) (m : M A) :
  (forall d, P d = true -> Q d = true) -> draws_only P m -> draws_only Q m.
Proof.
  intros PQ (d & r & Hm & Hd). exists d, r. split; [assumption |].
  rewrite forallb_forall in *. auto.
Qed.

Lemma draws_only_issued {A} P (m : M A) (c : canvas) :
  draws_only P m -> forallb P (issued m c) = true.
Proof.
  intros (d & r & Hm & Hd). unfold issued. rewrite Hm. cbn [fst].
  now rewrite skipn_app, skipn_all, Nat.sub_diag.
Qed.

Lemma forallb_filter_negb {A} (P Q : A -> bool) (l : list A) :
  (forall x, P x = true -> Q x = false) ->
  forallb P l = true -> filter Q l = [].
Proof.
  intros PQ H. induction l as [| x t IH]; cbn [filter]; [reflexivity |].
  cbn [forallb] in H. apply andb_true_iff in H. destruct H as [Hx Ht].
  rewrite (PQ x Hx). auto.
Qed.

Section ShapeFacts.

Context {G : Geometry} {Sup : Support G}.

Lemma plot_set_points_cases (s : ISet) color size marker :
  (exists xs ys,
      List.length xs = List.length (foreach_point s) /\
      List.length ys = List.length (foreach_point s) /\
      forall c, plot_set_points s color size marker c
                = (c ++ [Plot xs ys marker size color (Some 0%Z)], Ok tt)) \/
  (forall c, plot_set_points s color size marker c = (c, Raise IndexError)).
Proof.
  unfold plot_set_points, bind, lift.
  destruct (comprehension_getitem_cases 0
              (map get_point_coordinates (foreach_point s)))
    as [E0 | [xs E0]]; rewrite E0.
  - right. reflexivity.
  - destruct (comprehension_getitem_cases 1
                (map get_point_coordinates (foreach_point s)))
      as [E1 | [ys E1]]; rewrite E1.
    + right. reflexivity.
    + left. exists xs, ys.
      apply comprehension_length in E0. apply comprehension_length in E1.
      rewrite length_map in E0, E1. repeat split; assumption.
Qed.

Lemma polygon_path (v : coords) (vs : list coords) :
  setitem (repeat LINETO (List.length (v :: vs))) 0 MOVETO
  = Ok (MOVETO :: repeat LINETO (List.length vs)) /\
  List.split (combine (MOVETO :: repeat LINETO (List.length vs)) (v :: vs)
              ++ [(CLOSEPOLY, [0 # 1; 0 # 1])])
  = (MOVETO :: repeat LINETO (List.length vs) ++ [CLOSEPOLY],
     (v :: vs) ++ [[0 # 1; 0 # 1]]).
Proof.
  split; [reflexivity |].
  rewrite split_snoc, combine_split.
  - reflexivity.
  - cbn [List.length]. now rewrite repeat_length.
Qed.

Lemma resolved_color_eq (color : string) (vertex_color : option string) :
  (if negb (truthy vertex_color) then color else pop vertex_color color)
  = resolved_color color vertex_color.
Proof. unfold resolved_color. now destruct (truthy vertex_color). Qed.

Lemma add_path_patch_polygon (v : coords) (rest : list coords) color c :
  Forall (fun x : coords => List.length x = 2%nat) (v :: rest) ->
  add_path_patch ((v :: rest) ++ [[0 # 1; 0 # 1]])
                 (MOVETO :: repeat LINETO (List.length rest) ++ [CLOSEPOLY])
                 color c
  = (c ++ [AddPatch ((v :: rest) ++ [[0 # 1; 0 # 1]])
                    (MOVETO :: repeat LINETO (List.length rest)
                     ++ [CLOSEPOLY]) color],
     Ok tt).
Proof.
  intros H. unfold add_path_patch.
  assert (P : forallb is_pair ((v :: rest) ++ [[0 # 1; 0 # 1]]) = true).
  { rewrite forallb_app. apply andb_true_iff. split; [| reflexivity].
    apply forallb_forall. intros x Hx. rewrite Forall_forall in H.
    unfold is_pair. now rewrite (H x Hx). }
  rewrite P.
  assert (N : Nat.eqb
                (List.length (MOVETO :: repeat LINETO (List.length rest)
                              ++ [CLOSEPOLY]))
                (List.length ((v :: rest) ++ [[0 # 1; 0 # 1]])) = true).
  { apply Nat.eqb_eq. cbn [List.length app].
    now rewrite !length_app, repeat_length. }
  rewrite N. reflexivity.
Qed.

Lemma add_path_patch_not_pairs verts codes color c :
  Exists (fun x : coords => List.length x <> 2%nat) verts ->
  add_path_patch verts codes color c = (c, Raise ValueError).
Proof.
  intros H. unfold add_path_patch.
  assert (P : forallb is_pair verts = false).
  { apply not_true_is_false. intros F. rewrite forallb_forall in F.
    apply Exists_exists in H. destruct H as [x [Hx Hl]].
    specialize (F x Hx). unfold is_pair in F.
    apply Nat.eqb_eq in F. contradiction. }
  now rewrite P.
Qed.

(** The part of [plot_bset_shape] after the vertex markers. *)
Lemma shape_tail (vs : list coords) (color : string) (c : canvas) :
  (if Nat.eqb (List.length vs) 0 then ret tt
   else
     bind (lift (setitem (repeat LINETO (List.length vs)) 0 MOVETO))
       (fun codes =>
          let '(codes0, verts) :=
            List.split (combine codes vs ++ [(CLOSEPOLY, [0 # 1; 0 # 1])])
          in add_path_patch verts codes0 color)) c
  = match vs with
    | [] => (c, Ok tt)
    | _ :: rest =>
        add_path_patch (vs ++ [[0 # 1; 0 # 1]])
          (MOVETO :: repeat LINETO (List.length rest) ++ [CLOSEPOLY])
          color c
    end.
Proof.
  destruct vs as [| v rest].
  - reflexivity.
  - cbn [List.length Nat.eqb].
    destruct (polygon_path v rest) as [E1 E2].
    unfold bind, lift. cbn [List.length] in E1. rewrite E1, E2.
    reflexivity.
Qed.

(** The part of [plot_bset_shape] that plots the vertex markers. *)
Lemma shape_markers (vs : list coords) marker size color (c : canvas) :
  Forall (fun v : coords => (2 <= List.length v)%nat) vs ->
  bind (lift (comprehension (fun x : list Q => getitem x 0) vs))
    (fun dimX =>
       bind (lift (comprehension (fun x : list Q => getitem x 1) vs))
         (fun dimY => emit (Plot dimX dimY marker size color None))) c
  = (c ++ [Plot (map (fun v => nth 0 v (0 # 1)) vs)
                (map (fun v => nth 1 v (0 # 1)) vs) marker size color None],
     Ok tt).
Proof.
  intros Hv.
  assert (H0 : Forall (fun x : coords => (0 < List.length x)%nat) vs)
    by (eapply Forall_impl; [| exact Hv]; simpl; lia).
  assert (H1 : Forall (fun x : coords => (1 < List.length x)%nat) vs)
    by (eapply Forall_impl; [| exact Hv]; simpl; lia).
  unfold bind, lift.
  pose proof (comprehension_getitem_ok (0 # 1) H0) as E0.
  pose proof (comprehension_getitem_ok (0 # 1) H1) as E1.
  unfold coords in *. rewrite E0, E1.
  reflexivity.
Qed.

Lemma pairs_have_two (vs : list coords) :
  Forall (fun v : coords => List.length v = 2%nat) vs ->
  Forall (fun v : coords => (2 <= List.length v)%nat) vs.
Proof.
  intros H. eapply Forall_impl; [| exact H]. intros v Hv. simpl in *. lia.
Qed.

Lemma plot_bset_shape_run (b : BasicSet) show color vc marker size c :
  bset_is_bounded b = true ->
  Forall (fun v : coords => List.length v = 2%nat)
         (bset_get_vertex_coordinates b) ->
  plot_bset_shape b show color vc marker size c
  = (c ++ shape_calls (bset_get_vertex_coordinates b) show color vc marker
                      size,
     Ok tt).
Proof.
  intros Hb Hv. unfold plot_bset_shape, shape_calls.
  rewrite Hb, resolved_color_eq. unfold assert_. rewrite bind_ret.
  set (vs := bset_get_vertex_coordinates b) in *.
  assert (Tail : forall c',
    match vs with
    | [] => (c', Ok tt)
    | _ :: rest =>
        add_path_patch (vs ++ [[0 # 1; 0 # 1]])
          (MOVETO :: repeat LINETO (List.length rest) ++ [CLOSEPOLY])
          color c'
    end
    = (c' ++ match vs with
             | [] => []
             | _ :: rest =>
                 [AddPatch (vs ++ [[0 # 1; 0 # 1]])
                    (MOVETO :: repeat LINETO (List.length rest)
                     ++ [CLOSEPOLY]) color]
             end, Ok tt)).
  { intros c'. destruct vs as [| v rest].
    - now rewrite app_nil_r.
    - now apply add_path_patch_polygon. }
  destruct show.
  - unfold bind at 1.
    rewrite (shape_markers marker size (resolved_color color vc) c
               (pairs_have_two Hv)).
    rewrite shape_tail, Tail. now rewrite <- app_assoc.
  - rewrite bind_ret, shape_tail, Tail. reflexivity.
Qed.

Lemma plot_bset_shape_raise (b : BasicSet) color vc marker size c :
  bset_is_bounded b = true ->
  Exists (fun v : coords => (List.length v < 2)%nat)
         (bset_get_vertex_coordinates b) ->
  plot_bset_shape b true color vc marker size c = (c, Raise IndexError).
Proof.
  intros Hb Hv. unfold plot_bset_shape. rewrite Hb.
  unfold assert_. rewrite bind_ret. unfold bind, lift.
  destruct (comprehension_getitem_cases 0 (bset_get_vertex_coordinates b))
    as [-> | [xs ->]]; [reflexivity |].
  rewrite comprehension_getitem_raise; [reflexivity |].
  eapply Exists_impl; [| exact Hv]. intros v Hl. simpl in Hl |- *. lia.
Qed.

(** A vertex that is not a pair, on a set whose vertex markers are not
    shown or can be plotted: the [Path] is refused. *)
Lemma plot_bset_shape_value_error (b : BasicSet) show color vc marker size c :
  bset_is_bounded b = true ->
  Exists (fun v : coords => List.length v <> 2%nat)
         (bset_get_vertex_coordinates b) ->
  (show = true ->
   Forall (fun v : coords => (2 <= List.length v)%nat)
          (bset_get_vertex_coordinates b)) ->
  plot_bset_shape b show color vc marker size c
  = (c ++ (if show
           then [Plot (map (fun v => nth 0 v (0 # 1))
                           (bset_get_vertex_coordinates b))
                      (map (fun v => nth 1 v (0 # 1))
                           (bset_get_vertex_coordinates b))
                      marker size (resolved_color color vc) None]
           else []),
     Raise ValueError).
Proof.
  intros Hb He Hv. unfold plot_bset_shape.
  rewrite Hb, resolved_color_eq. unfold assert_. rewrite bind_ret.
  set (vs := bset_get_vertex_coordinates b) in *.
  assert (Tail : forall c',
    match vs with
    | [] => (c', Ok tt)
    | _ :: rest =>
        add_path_patch (vs ++ [[0 # 1; 0 # 1]])
          (MOVETO :: repeat LINETO (List.length rest) ++ [CLOSEPOLY])
          color c'
    end = (c', Raise ValueError)).
  { intros c'. destruct vs as [| v rest]; [inversion He |].
    apply add_path_patch_not_pairs. apply Exists_app. now left. }
  destruct show.
  - unfold bind at 1.
    rewrite (shape_markers marker size (resolved_color color vc) c
               (Hv eq_refl)).
    now rewrite shape_tail, Tail.
  - rewrite bind_ret, shape_tail, Tail. now rewrite app_nil_r.
Qed.

End ShapeFacts.

Section ArrowFacts.

Context {G : Geometry} {Sup : Support G} {Sem : Semantics G}.
Context (L : GeometryLaws Sem).

Lemma range_enumerated (m : IMap) (l : list (Point * Point)) :
  (forall a b, map_mem m a b -> In (a, b) l) ->
  NoDup (foreach_point (range m)) /\
  forall b, In b (foreach_point (range m)) <-> exists a, map_mem m a b.
Proof.
  intros Hfin.
  destruct (foreach_point_spec (range m) (map snd l)) as [ND HI].
  - intros y Hy. apply range_spec in Hy. destruct Hy as [x Hx].
    apply in_map_iff. exists (x, y). auto.
  - split; [assumption |]. intros b. rewrite HI. apply range_spec.
Qed.

Lemma group_enumerated (m : IMap) (l : list (Point * Point)) (b : Point) :
  (forall a b, map_mem m a b -> In (a, b) l) ->
  NoDup (foreach_point (group_members m b)) /\
  forall a, In a (foreach_point (group_members m b)) <-> map_mem m a b.
Proof.
  intros Hfin.
  destruct (foreach_point_spec (group_members m b) (map fst l)) as [ND HI].
  - intros x Hx. apply (group_members_spec L) in Hx.
    apply in_map_iff. exists (x, b). auto.
  - split; [assumption |]. intros a. rewrite HI.
    apply (group_members_spec L).
Qed.

Lemma plot_map_pairs (m : IMap) (l : list (Point * Point)) style width
    color c :
  (forall a b, map_mem m a b -> In (a, b) l) ->
  (forall a b, map_mem m a b ->
     List.length (get_point_coordinates a) = 2%nat /\
     List.length (get_point_coordinates b) = 2%nat) ->
  exists pairs : list (Point * Point),
    NoDup pairs /\
    (forall a b, In (a, b) pairs <-> map_mem m a b) /\
    plot_map m style width color c
    = (c ++ map (fun ab => arrow_call style width color
                             (get_point_coordinates (fst ab))
                             (get_point_coordinates (snd ab))) pairs,
       Ok tt).
Proof.
  intros Hfin Hdim.
  exists (flat_map (fun b => map (fun a => (a, b))
                                 (foreach_point (group_members m b)))
                   (foreach_point (range m))).
  destruct (range_enumerated m l Hfin) as [NDr Hr].
  split; [| split].
  - apply NoDup_pairs; [assumption |].
    intros b. apply (group_enumerated m l b Hfin).
  - intros a b. rewrite In_pairs, Hr.
    rewrite (proj2 (group_enumerated m l b Hfin)).
    split; [tauto | eauto].
  - rewrite plot_map_run.
    + rewrite (map_flat_map_pairs
                 (fun start end_ =>
                    Annotate "" (get_point_coordinates start) "data"
                      (get_point_coordinates end_) "data"
                      (ArrowProps style "arc3" 10 10 width color))).
      reflexivity.
    + intros start Hs. apply Hr in Hs. destruct Hs as [a Ha]. split.
      * apply (Hdim a start Ha).
      * intros end_ He.
        apply (proj2 (group_enumerated m l start Hfin)) in He.
        apply (Hdim end_ start He).
Qed.

End ArrowFacts.

Section KindFacts.

Context {G : Geometry} {Sup : Support G}.

Lemma draws_only_plot_set_points (s : ISet) color size marker :
  draws_only is_plot (plot_set_points s color size marker).
Proof.
  unfold plot_set_points.
  apply draws_only_bind; [apply draws_only_lift | intros dimX].
  apply draws_only_bind; [apply draws_only_lift | intros dimY].
  now apply draws_only_emit.
Qed.

Lemma draws_only_plot_map (m : IMap) style width color :
  draws_only is_arrow (plot_map m style width color).
Proof.
  unfold plot_map. apply draws_only_for_each. intros start.
  apply draws_only_for_each. intros end_.
  unfold _plot_arrow, annotate.
  destruct (is_pair _ && is_pair _);
    [now apply draws_only_emit | apply draws_only_raise].
Qed.

Lemma draws_only_plot_bset_shape (b : BasicSet) show color vc marker size :
  draws_only (fun d => is_plot d || is_patch d)
             (plot_bset_shape b show color vc marker size).
Proof.
  unfold plot_bset_shape.
  apply draws_only_bind; [apply draws_only_assert | intros _].
  apply draws_only_bind.
  - destruct show; [| apply draws_only_ret].
    apply draws_only_bind; [apply draws_only_lift | intros dimX].
    apply draws_only_bind; [apply draws_only_lift | intros dimY].
    now apply draws_only_emit.
  - intros _. destruct (Nat.eqb _ 0); [apply draws_only_ret |].
    apply draws_only_bind; [apply draws_only_lift | intros codes].
    destruct (List.split _) as [cs vs]. unfold add_path_patch.
    destruct (forallb is_pair vs && _ && _);
      [now apply draws_only_emit | apply draws_only_raise].
Qed.

Lemma draws_only_plot_map_as_groups (bmap : IMap) color vc marker size :
  draws_only (fun d => is_plot d || is_patch d)
             (plot_map_as_groups bmap color vc marker size).
Proof.
  unfold plot_map_as_groups. apply draws_only_for_each. intros point.
  apply draws_only_bind; [apply draws_only_assert | intros _].
  apply draws_only_bind; [| intros _; apply draws_only_plot_bset_shape].
  eapply draws_only_weaken; [| apply draws_only_plot_set_points].
  intros d Hd. now rewrite Hd.
Qed.

(** [plot_domain], with the inputs after the transform named. *)
Lemma plot_domain_unfold (domain_ : ISet) (dependences tiling space : option IMap)
    tile_color vertex_color vertex_size vertex_marker background c :
  let d := match space with
           | Some sp => apply domain_ sp
           | None => domain_
           end in
  let deps := match space with
              | Some sp =>
                  option_map (fun x => apply_domain (apply_range x sp) sp)
                             dependences
              | None => dependences
              end in
  let til := match space with
             | Some sp => option_map (fun t => apply_domain t sp) tiling
             | None => tiling
             end in
  plot_domain domain_ dependences tiling space tile_color vertex_color
              vertex_size vertex_marker background c
  = (emit (Autoscale true true) ;;
     emit TightLayout ;;
     (if background
      then plot_set_points (get_rectangular_hull d 1) "lightgray"
                           vertex_size vertex_marker
      else ret tt) ;;
     plot_set_points d vertex_color vertex_size vertex_marker ;;
     match deps with
     | Some x => plot_map (rendered_dependences d x til) "->" 1 "gray"
     | None => ret tt
     end ;;
     match til with
     | Some t => plot_map_as_groups (intersect_domain t d) tile_color
                                    (Some vertex_color) vertex_marker
                                    vertex_size
     | None => ret tt
     end) c.
Proof.
  destruct space, dependences, tiling; reflexivity.
Qed.

End KindFacts.

Lemma draws_only_ext {A} P (m m' : M A) :
  (forall c, m c = m' c) -> draws_only P m' -> draws_only P m.
Proof.
  intros E (d & r & Hm & Hd). exists d, r. split; [| assumption].
  intros c. rewrite E. apply Hm.
Qed.

Lemma run_issued {A} (m : M A) (c : canvas) d r :
  m c = (c ++ d, r) -> issued m c = d /\ outcome m c = r.
Proof.
  intros E. unfold issued, outcome. rewrite E. cbn [fst snd].
  now rewrite skipn_app, skipn_all, Nat.sub_diag.
Qed.

Lemma resolved_color_idem (color : string) (vertex_color : option string) :
  resolved_color color (Some (resolved_color color vertex_color))
  = resolved_color color vertex_color.
Proof.
  destruct vertex_color as [[| a s] |]; cbn; destruct color; reflexivity.
Qed.

Lemma shape_calls_resolved vertices show color vertex_color marker size :
  shape_calls vertices show color
              (Some (resolved_color color vertex_color)) marker size
  = shape_calls vertices show color vertex_color marker size.
Proof. unfold shape_calls. now rewrite resolved_color_idem. Qed.

(** ** Beyond the claims *)

(** X1: on a bounded basic set with at least one vertex, all vertices
    being pairs, [plot_bset_shape] plots the vertex markers when they are
    shown and adds one polygon: its vertices are those of the set followed
    by (0,0), its codes are MOVETO, then LINETO for every further vertex,
    then CLOSEPOLY, so that the path has as many codes as vertices. *)
Theorem plot_bset_shape_polygon
    (G : Geometry) (Sup : Support G) (bset_data : BasicSet)
    (show_vertices : bool) (color : string) (vertex_color : option string)
    (vertex_marker : string) (vertex_size : Z) (c : canvas)
    (v : coords) (rest : list coords) :
  bset_is_bounded bset_data = true ->
  bset_get_vertex_coordinates bset_data = v :: rest ->
  Forall (fun x : coords => List.length x = 2%nat) (v :: rest) ->
  let verts := (v :: rest) ++ [[0 # 1; 0 # 1]] in
  let codes := MOVETO :: repeat LINETO (List.length rest) ++ [CLOSEPOLY] in
  plot_bset_shape bset_data show_vertices color vertex_color vertex_marker
                  vertex_size c
  = (c ++ (if show_vertices
           then [Plot (map (fun x => nth 0 x (0 # 1)) (v :: rest))
                      (map (fun x => nth 1 x (0 # 1)) (v :: rest))
                      vertex_marker vertex_size
                      (resolved_color color vertex_color) None]
           else [])
       ++ [AddPatch verts codes color],
     Ok tt) /\
  List.length codes = List.length verts.
Proof.
  intros Hb Hv H2 verts codes. split.
  - rewrite plot_bset_shape_run; [| assumption | now rewrite Hv].
    rewrite Hv. reflexivity.
  - unfold codes, verts. cbn [List.length app].
    now rewrite !length_app, repeat_length.
Qed.

(** X2: a bounded basic set with a vertex that is not a pair never gets
    its polygon.  If the vertices are shown and one of them has fewer than
    two coordinates, [plot_bset_shape] ends with [IndexError] and draws
    nothing; otherwise the vertex markers are plotted if they are shown
    and the call ends with the [ValueError] of the refused path. *)
Theorem plot_bset_shape_vertex_not_a_pair
    (G : Geometry) (Sup : Support G) (bset_data : BasicSet)
    (show_vertices : bool) (color : string) (vertex_color : option string)
    (vertex_marker : string) (vertex_size : Z) (c : canvas) :
  let vs := bset_get_vertex_coordinates bset_data in
  let run := plot_bset_shape bset_data show_vertices color vertex_color
                             vertex_marker vertex_size in
  bset_is_bounded bset_data = true ->
  Exists (fun x : coords => List.length x <> 2%nat) vs ->
  (show_vertices = true ->
   Exists (fun x : coords => (List.length x < 2)%nat) vs ->
   run c = (c, Raise IndexError)) /\
  (show_vertices = false \/
   Forall (fun x : coords => (2 <= List.length x)%nat) vs ->
   run c
   = (c ++ (if show_vertices
            then [Plot (map (fun x => nth 0 x (0 # 1)) vs)
                       (map (fun x => nth 1 x (0 # 1)) vs)
                       vertex_marker vertex_size
                       (resolved_color color vertex_color) None]
            else []),
      Raise ValueError)) /\
  filter is_patch (issued run c) = [] /\
  outcome run c <> Ok tt.
Proof.
  intros vs run Hb He.
  assert (A : show_vertices = true ->
              Exists (fun x : coords => (List.length x < 2)%nat) vs ->
              run c = (c, Raise IndexError)).
  { intros -> Hs. now apply plot_bset_shape_raise. }
  assert (B : show_vertices = false \/
              Forall (fun x : coords => (2 <= List.length x)%nat) vs ->
              run c
              = (c ++ (if show_vertices
                       then [Plot (map (fun x => nth 0 x (0 # 1)) vs)
                               (map (fun x => nth 1 x (0 # 1)) vs)
                               vertex_marker vertex_size
                               (resolved_color color vertex_color) None]
                       else []),
                 Raise ValueError)).
  { intros H. apply plot_bset_shape_value_error; [assumption | assumption |].
    intros ->. destruct H as [H | H]; [discriminate | exact H]. }
  split; [exact A |]. split; [exact B |].
  destruct show_vertices.
  - destruct (Forall_Exists_dec
                (fun x : coords => (2 <= List.length x)%nat)
                (fun x => le_dec 2 (List.length x)) vs) as [F | E].
    + destruct (@run_issued _ run c _ _ (B (or_intror F))) as [-> ->].
      split; [reflexivity | discriminate].
    + assert (E' : Exists (fun x : coords => (List.length x < 2)%nat) vs).
      { eapply Exists_impl; [| exact E]. intros x Hx. simpl in *. lia. }
      pose proof (A eq_refl E') as R. rewrite <- (app_nil_r c) in R at 2.
      destruct (@run_issued _ run c _ _ R) as [-> ->].
      split; [reflexivity | discriminate].
  - destruct (@run_issued _ run c _ _ (B (or_introl eq_refl))) as [-> ->].
    split; [reflexivity | discriminate].
Qed.

(** X3: [plot_map] draws arrows only, and only between pairs: every call
    it issues is an annotation without text, in data coordinates, from a
    pair to a pair, with the requested style, width and colour, the
    connection style "arc3" and a shrink of 10 at both ends; it returns
    normally or ends with the [ValueError] of a refused position, never
    with an [IndexError] or an assertion failure. *)
Theorem plot_map_only_arrows
    (G : Geometry) (Sup : Support G) (map_data : IMap)
    (edge_style : string) (edge_width : Z) (color : string) (c : canvas) :
  (outcome (plot_map map_data edge_style edge_width color) c = Ok tt \/
   outcome (plot_map map_data edge_style edge_width color) c
   = Raise ValueError) /\
  Forall (fun d => exists a b,
            List.length a = 2%nat /\ List.length b = 2%nat /\
            d = arrow_call edge_style edge_width color a b)
         (issued (plot_map map_data edge_style edge_width color) c).
Proof.
  assert (K : forall A (l : list A) (body : A -> M unit),
    (forall x, arrows_or_value_error edge_style edge_width color (body x)) ->
    arrows_or_value_error edge_style edge_width color (for_each l body)).
  { intros A l body Hb. induction l as [| x t IH]; cbn [for_each].
    - exists [], (Ok tt). repeat split; auto.
      intros c0. unfold ret. now rewrite app_nil_r.
    - destruct (Hb x) as (d & r & Hm & Hd & Hr).
      destruct Hr as [-> | ->].
      + destruct IH as (d' & r' & Hm' & Hd' & Hr').
        exists (d ++ d'), r'. repeat split; auto.
        * intros c0. unfold bind. rewrite Hm, Hm'. now rewrite app_assoc.
        * apply Forall_app. auto.
      + exists d, (Raise ValueError). repeat split; auto.
        intros c0. unfold bind. now rewrite Hm. }
  assert (P : arrows_or_value_error edge_style edge_width color
                (plot_map map_data edge_style edge_width color)).
  { unfold plot_map. apply K. intros start. apply K. intros end_.
    unfold _plot_arrow, annotate, is_pair.
    cbn [pop kw_style kw_width kw_color].
    destruct (Nat.eqb_spec (List.length (get_point_coordinates start)) 2)
      as [Es | Ns];
      destruct (Nat.eqb_spec (List.length (get_point_coordinates end_)) 2)
        as [Ee | Ne]; cbn [andb].
    - exists [arrow_call edge_style edge_width color
                (get_point_coordinates end_) (get_point_coordinates start)],
        (Ok tt).
      repeat split; auto. constructor; [| constructor]. eauto 6.
    - exists [], (Raise ValueError). repeat split; auto.
      intros c0. unfold raise. now rewrite app_nil_r.
    - exists [], (Raise ValueError). repeat split; auto.
      intros c0. unfold raise. now rewrite app_nil_r.
    - exists [], (Raise ValueError). repeat split; auto.
      intros c0. unfold raise. now rewrite app_nil_r. }
  destruct P as (d & r & Hm & Hd & Hr).
  destruct (@run_issued _ (plot_map map_data edge_style edge_width color)
              c d r (Hm c)) as [-> ->].
  split; [| exact Hd]. destruct Hr as [-> | ->]; auto.
Qed.

(** X4: a vertex colour that is absent, empty, or equal to the shape colour
    gives the same drawing, in [plot_bset_shape] and in
    [plot_map_as_groups]: the vertex markers then take the colour of the
    shape. *)
Theorem vertex_color_defaults_to_color
    (G : Geometry) (Sup : Support G) (bset_data : BasicSet) (bmap : IMap)
    (show_vertices : bool) (color : string) (vertex_marker : string)
    (vertex_size : Z) (c : canvas) :
  plot_bset_shape bset_data show_vertices color (Some color) vertex_marker
                  vertex_size c
  = plot_bset_shape bset_data show_vertices color None vertex_marker
                    vertex_size c /\
  plot_bset_shape bset_data show_vertices color (Some ""%string)
                  vertex_marker vertex_size c
  = plot_bset_shape bset_data show_vertices color None vertex_marker
                    vertex_size c /\
  plot_map_as_groups bmap color (Some color) vertex_marker vertex_size c
  = plot_map_as_groups bmap color None vertex_marker vertex_size c /\
  plot_map_as_groups bmap color (Some ""%string) vertex_marker vertex_size c
  = plot_map_as_groups bmap color None vertex_marker vertex_size c.
Proof.
  repeat split; try reflexivity; destruct color; reflexivity.
Qed.

(** X5: [plot_set_points] is all or nothing.  Either it issues exactly one
    [Plot] call, whose two coordinate lists have one entry per point of
    the set, in the given marker, size and colour and with line width 0,
    or it ends with [IndexError] and leaves the canvas as it was. *)
Theorem plot_set_points_all_or_nothing
    (G : Geometry) (Sup : Support G) (set_data : ISet) (color : string)
    (size : Z) (marker : string) (c : canvas) :
  (exists xs ys,
      plot_set_points set_data color size marker c
      = (c ++ [Plot xs ys marker size color (Some 0%Z)], Ok tt) /\
      List.length xs = List.length (foreach_point set_data) /\
      List.length ys = List.length (foreach_point set_data)) \/
  plot_set_points set_data color size marker c = (c, Raise IndexError).
Proof.
  destruct (plot_set_points_cases set_data color size marker)
    as [(xs & ys & Lx & Ly & E) | E].
  - left. exists xs, ys. auto.
  - right. apply E.
Qed.

(** X6: for a map with finitely many pairs, all of points with two
    coordinates, [plot_map] draws one arrow per pair, and nothing else:
    there is a duplicate free list of the pairs the map relates such that
    the calls issued are the arrows from the coordinates of the domain
    point to the coordinates of the range point of these pairs. *)
Theorem plot_map_one_arrow_per_pair
    (G : Geometry) (Sup : Support G) (Sem : Semantics G)
    (L : GeometryLaws Sem) (map_data : IMap) (l : list (Point * Point))
    (edge_style : string) (edge_width : Z) (color : string) (c : canvas) :
  (forall a b, map_mem map_data a b -> In (a, b) l) ->
  (forall a b, map_mem map_data a b ->
     List.length (get_point_coordinates a) = 2%nat /\
     List.length (get_point_coordinates b) = 2%nat) ->
  exists pairs : list (Point * Point),
    NoDup pairs /\
    (forall a b, In (a, b) pairs <-> map_mem map_data a b) /\
    plot_map map_data edge_style edge_width color c
    = (c ++ map (fun ab => arrow_call edge_style edge_width color
                             (get_point_coordinates (fst ab))
                             (get_point_coordinates (snd ab))) pairs,
       Ok tt).
Proof.
  intros Hfin Hdim. exact (plot_map_pairs L map_data l edge_style edge_width
                             color c Hfin Hdim).
Qed.

(** X7: when every group of the map is convex, its hull bounded, the
    points of the hull have at least two coordinates and its vertices are
    pairs, [plot_map_as_groups] returns normally and draws, group after
    group in the order of the range points, the points of the hull (line
    width 0) and then its shape with the vertices shown, markers and
    points in the same colour. *)
Theorem plot_map_as_groups_all_convex
    (G : Geometry) (Sup : Support G) (bmap : IMap) (color : string)
    (vertex_color : option string) (vertex_marker : string)
    (vertex_size : Z) (c : canvas) :
  let hull := fun point => convex_hull (group_members bmap point) in
  Forall (fun point =>
            group_is_convex bmap point = true /\
            bset_is_bounded (hull point) = true /\
            Forall (fun p => (2 <= List.length (get_point_coordinates p))%nat)
                   (foreach_point (to_set (hull point))) /\
            Forall (fun v : coords => List.length v = 2%nat)
                   (bset_get_vertex_coordinates (hull point)))
         (foreach_point (range bmap)) ->
  plot_map_as_groups bmap color vertex_color vertex_marker vertex_size c
  = (c ++ flat_map (fun point =>
        Plot (map (fun p => nth 0 (get_point_coordinates p) (0 # 1))
                  (foreach_point (to_set (hull point))))
             (map (fun p => nth 1 (get_point_coordinates p) (0 # 1))
                  (foreach_point (to_set (hull point))))
             vertex_marker vertex_size
             (resolved_color color vertex_color) (Some 0%Z)
        :: shape_calls (bset_get_vertex_coordinates (hull point)) true
                       color vertex_color vertex_marker vertex_size)
        (foreach_point (range bmap)),
     Ok tt).
Proof.
  intros hull H. rewrite plot_map_as_groups_unfold.
  rewrite resolved_color_eq.
  apply for_each_calls. intros point c' Hin.
  rewrite Forall_forall in H.
  destruct (H point Hin) as (Hc & Hb & Hp & Hv).
  rewrite Hc. unfold assert_. rewrite bind_ret.
  unfold render_group. fold (hull point). cbv zeta. unfold bind.
  rewrite (plot_set_points_ok _ _ _ _ _ Hp).
  rewrite (@plot_bset_shape_run G Sup (hull point) true color _
             vertex_marker vertex_size _ Hb Hv).
  rewrite shape_calls_resolved. now rewrite <- app_assoc.
Qed.

(** X8: on a bounded set whose basic sets are bounded and have vertices
    that are pairs, [plot_set_shapes] returns normally and draws the
    shapes of the basic sets one after the other, in the order they are
    enumerated, with the keyword options or their defaults: shown
    vertices, colour "gray", marker "o", size 10. *)
Theorem plot_set_shapes_draws_every_basic_set
    (G : Geometry) (Sup : Support G) (set_data : ISet)
    (args : list pyval) (kwargs : shape_kwargs) (c : canvas) :
  is_bounded set_data = true ->
  Forall (fun b =>
            bset_is_bounded b = true /\
            Forall (fun v : coords => List.length v = 2%nat)
                   (bset_get_vertex_coordinates b))
         (foreach_basic_set set_data) ->
  plot_set_shapes set_data args kwargs c
  = (c ++ flat_map (fun b =>
        shape_calls (bset_get_vertex_coordinates b)
                    (pop (kw_show_vertices kwargs) true)
                    (pop (kw_shape_color kwargs) "gray"%string)
                    (kw_vertex_color kwargs)
                    (pop (kw_vertex_marker kwargs) "o"%string)
                    (pop (kw_vertex_size kwargs) 10%Z))
        (foreach_basic_set set_data),
     Ok tt).
Proof.
  intros Hs H. unfold plot_set_shapes. rewrite Hs.
  unfold assert_. rewrite bind_ret.
  apply foreach_callback_calls. intros b c' Hin.
  rewrite Forall_forall in H. destruct (H b Hin) as [Hb Hv].
  now apply plot_bset_shape_run.
Qed.

(** X9: if the domain (after the transform, if there is one) has a point
    of fewer than two coordinates, [plot_domain] ends with [IndexError]
    whatever the dependences and the tiling are, and nothing of them is
    drawn: after the two configuration calls the canvas holds at most the
    background points. *)
Theorem plot_domain_short_point
    (G : Geometry) (Sup : Support G) (domain_ : ISet)
    (dependences tiling space : option IMap)
    (tile_color vertex_color : string) (vertex_size : Z)
    (vertex_marker : string) (background : bool) (c : canvas) :
  let d := match space with
           | Some sp => apply domain_ sp
           | None => domain_
           end in
  Exists (fun p => (List.length (get_point_coordinates p) < 2)%nat)
         (foreach_point d) ->
  outcome (plot_domain domain_ dependences tiling space tile_color
                       vertex_color vertex_size vertex_marker background) c
  = Raise IndexError /\
  exists drawn,
    issued (plot_domain domain_ dependences tiling space tile_color
                        vertex_color vertex_size vertex_marker background) c
    = [Autoscale true true; TightLayout] ++ drawn /\
    (drawn = [] \/
     background = true /\
     exists xs ys,
       drawn = [Plot xs ys vertex_marker vertex_size "lightgray" (Some 0%Z)]).
Proof.
  intros d Hd.
  assert (R : exists drawn,
    plot_domain domain_ dependences tiling space tile_color vertex_color
                vertex_size vertex_marker background c
    = (c ++ [Autoscale true true; TightLayout] ++ drawn, Raise IndexError) /\
    (drawn = [] \/
     background = true /\
     exists xs ys,
       drawn = [Plot xs ys vertex_marker vertex_size "lightgray"
                     (Some 0%Z)])).
  { rewrite plot_domain_unfold. fold d. rewrite !bind_emit.
    unfold bind at 1.
    destruct background.
    - destruct (plot_set_points_cases (get_rectangular_hull d 1) "lightgray"
                  vertex_size vertex_marker)
        as [(xs & ys & _ & _ & E) | E]; rewrite E.
      + exists [Plot xs ys vertex_marker vertex_size "lightgray" (Some 0%Z)].
        split; [| right; eauto].
        unfold bind. rewrite (plot_set_points_raise _ _ _ _ _ Hd).
        now rewrite <- !app_assoc.
      + exists []. split; [| now left]. now rewrite <- !app_assoc.
    - exists []. split; [| now left]. unfold ret, bind.
      rewrite (plot_set_points_raise _ _ _ _ _ Hd).
      now rewrite <- !app_assoc. }
  destruct R as (drawn & E & Hdrawn).
  destruct (@run_issued _ _ c _ _ E) as [Ei Eo].
  split; [exact Eo |]. exists drawn. split; assumption.
Qed.

(** X10: with dependences and without tiling or transform, on a finite
    domain whose points have two coordinates (and whose hull's points,
    when the background is drawn, have at least two), [plot_domain]
    returns normally and draws, after the configuration calls, the
    background points if asked, the domain points, and then one gray arrow
    for every dependence pair whose two endpoints lie in the domain, and
    no other arrow. *)
Theorem plot_domain_arrows_inside_domain
    (G : Geometry) (Sup : Support G) (Sem : Semantics G)
    (L : GeometryLaws Sem) (domain_ : ISet) (dependences : IMap)
    (l : list Point) (tile_color vertex_color : string) (vertex_size : Z)
    (vertex_marker : string) (background : bool) (c : canvas) :
  let hull := get_rectangular_hull domain_ 1 in
  let points_plot := fun (s : ISet) (color : string) =>
    Plot (map (fun p => nth 0 (get_point_coordinates p) (0 # 1))
              (foreach_point s))
         (map (fun p => nth 1 (get_point_coordinates p) (0 # 1))
              (foreach_point s))
         vertex_marker vertex_size color (Some 0%Z) in
  (forall p, set_mem domain_ p -> In p l) ->
  Forall (fun p => List.length (get_point_coordinates p) = 2%nat)
         (foreach_point domain_) ->
  (background = true ->
   Forall (fun p => (2 <= List.length (get_point_coordinates p))%nat)
          (foreach_point hull)) ->
  exists pairs : list (Point * Point),
    NoDup pairs /\
    (forall a b, In (a, b) pairs <->
                 map_mem dependences a b /\
                 set_mem domain_ a /\ set_mem domain_ b) /\
    plot_domain domain_ (Some dependences) None None tile_color vertex_color
                vertex_size vertex_marker background c
    = (c ++ [Autoscale true true; TightLayout]
         ++ (if background then [points_plot hull "lightgray"%string] else [])
         ++ [points_plot domain_ vertex_color]
         ++ map (fun ab => arrow_call "->" 1 "gray"
                             (get_point_coordinates (fst ab))
                             (get_point_coordinates (snd ab))) pairs,
       Ok tt).
Proof.
  intros hull points_plot Hfin Hd2 Hh.
  assert (Hd : Forall
                 (fun p => (2 <= List.length (get_point_coordinates p))%nat)
                 (foreach_point domain_)).
  { eapply Forall_impl; [| exact Hd2]. intros p Hp. simpl in *. lia. }
  assert (Hpt : forall p, set_mem domain_ p ->
                          List.length (get_point_coordinates p) = 2%nat).
  { intros p Hp. destruct (foreach_point_spec domain_ l Hfin) as [_ HI].
    rewrite Forall_forall in Hd2. apply Hd2. now apply HI. }
  set (m := rendered_dependences domain_ dependences None).
  assert (Hm : forall a b, map_mem m a b -> In (a, b) (list_prod l l)).
  { intros a b H. apply (rendered_dependences_spec L) in H.
    destruct H as (_ & Ha & Hb & _). apply in_prod_iff. auto. }
  assert (Hm2 : forall a b, map_mem m a b ->
                  List.length (get_point_coordinates a) = 2%nat /\
                  List.length (get_point_coordinates b) = 2%nat).
  { intros a b H. apply (rendered_dependences_spec L) in H.
    destruct H as (_ & Ha & Hb & _). auto. }
  set (c1 := c ++ [Autoscale true true; TightLayout]
               ++ (if background
                   then [points_plot hull "lightgray"%string] else [])
               ++ [points_plot domain_ vertex_color]).
  destruct (plot_map_pairs L m (list_prod l l) "->" 1%Z "gray" c1 Hm Hm2)
    as (pairs & ND & Hpairs & E).
  exists pairs. split; [exact ND |]. split.
  - intros a b. rewrite Hpairs. unfold m.
    rewrite (rendered_dependences_spec L). tauto.
  - rewrite plot_domain_unfold. cbv zeta. rewrite !bind_emit.
    fold hull. fold m.
    assert (P : forall c',
      bind (if background
            then plot_set_points hull "lightgray" vertex_size vertex_marker
            else ret tt)
           (fun _ =>
              bind (plot_set_points domain_ vertex_color vertex_size
                                    vertex_marker)
                   (fun _ => bind (plot_map m "->" 1 "gray")
                                  (fun _ => ret tt))) c'
      = bind (plot_map m "->" 1 "gray") (fun _ => ret tt)
             (c' ++ (if background
                     then [points_plot hull "lightgray"%string] else [])
                 ++ [points_plot domain_ vertex_color])).
    { intros c'. destruct background.
      - unfold bind at 1.
        rewrite (plot_set_points_ok _ _ _ _ _ (Hh eq_refl)).
        unfold bind at 1. rewrite (plot_set_points_ok _ _ _ _ _ Hd).
        now rewrite <- !app_assoc.
      - rewrite bind_ret. unfold bind at 1.
        rewrite (plot_set_points_ok _ _ _ _ _ Hd). reflexivity. }
    rewrite P. unfold bind.
    replace ((c ++ [Autoscale true true]) ++ [TightLayout])
      with (c ++ [Autoscale true true; TightLayout])
      by now rewrite <- app_assoc.
    replace ((c ++ [Autoscale true true; TightLayout])
             ++ (if background
                 then [points_plot hull "lightgray"%string] else [])
             ++ [points_plot domain_ vertex_color])
      with c1 by (unfold c1; now rewrite <- !app_assoc).
    rewrite E. unfold ret, c1. now rewrite <- !app_assoc.
Qed.

(** X11: [plot_domain] draws nothing that was not asked for: without a
    tiling it adds no polygon to the canvas, without dependences it draws
    no arrow, and without either it issues, besides the configuration
    calls, point plots only. *)
Theorem plot_domain_nothing_unrequested
    (G : Geometry) (Sup : Support G) (domain_ : ISet)
    (dependences tiling space : option IMap)
    (tile_color vertex_color : string) (vertex_size : Z)
    (vertex_marker : string) (background : bool) (c : canvas) :
  filter is_patch
    (issued (plot_domain domain_ dependences None space tile_color
                         vertex_color vertex_size vertex_marker background) c)
  = [] /\
  filter is_arrow
    (issued (plot_domain domain_ None tiling space tile_color
                         vertex_color vertex_size vertex_marker background) c)
  = [] /\
  filter (fun d => is_drawing d && negb (is_plot d))
    (issued (plot_domain domain_ None None space tile_color
                         vertex_color vertex_size vertex_marker background) c)
  = [].
Proof.
  assert (K : forall (P : call -> bool) deps til,
    P (Autoscale true true) = true -> P TightLayout = true ->
    (forall d, is_plot d = true -> P d = true) ->
    (deps <> None -> forall d, is_arrow d = true -> P d = true) ->
    (til <> None ->
     forall d, is_plot d || is_patch d = true -> P d = true) ->
    draws_only P
      (plot_domain domain_ deps til space tile_color vertex_color
                   vertex_size vertex_marker background)).
  { intros P deps til Ha Ht Hp Hdeps Htil.
    eapply draws_only_ext; [intros c0; apply plot_domain_unfold |].
    cbv zeta.
    apply draws_only_bind; [now apply draws_only_emit | intros _].
    apply draws_only_bind; [now apply draws_only_emit | intros _].
    apply draws_only_bind.
    { destruct background; [| apply draws_only_ret].
      eapply draws_only_weaken; [exact Hp |].
      apply draws_only_plot_set_points. }
    intros _. apply draws_only_bind.
    { eapply draws_only_weaken; [exact Hp |].
      apply draws_only_plot_set_points. }
    intros _. apply draws_only_bind.
    { destruct space, deps; cbn [option_map];
        try apply draws_only_ret;
        (eapply draws_only_weaken;
         [apply Hdeps; discriminate | apply draws_only_plot_map]). }
    intros _.
    destruct space, til; cbn [option_map];
      try apply draws_only_ret;
      (eapply draws_only_weaken;
       [apply Htil; discriminate | apply draws_only_plot_map_as_groups]). }
  repeat split.
  - apply (forallb_filter_negb (fun d => negb (is_patch d))).
    + intros d Hd. now destruct (is_patch d).
    + apply draws_only_issued. apply K; try reflexivity.
      * intros d Hd. now destruct d.
      * intros _ d Hd. now destruct d.
      * intros H. congruence.
  - apply (forallb_filter_negb (fun d => negb (is_arrow d))).
    + intros d Hd. now destruct (is_arrow d).
    + apply draws_only_issued. apply K; try reflexivity.
      * intros d Hd. now destruct d.
      * intros H. congruence.
      * intros _ d Hd. now destruct d.
  - apply (forallb_filter_negb
             (fun d => negb (is_drawing d) || is_plot d)).
    + intros d Hd. now destruct d.
    + apply draws_only_issued. apply K; try reflexivity.
      * intros d Hd. now destruct d.
      * intros H. congruence.
      * intros H. congruence.
Qed.

(** X12: a shape that cannot be drawn ends [plot_set_shapes] with islpy's
    error, not with the exception of [plot_bset_shape].  On a bounded set
    whose first basic set is bounded and has a vertex that is not a pair,
    the callback fails, islpy raises its own error in place of the
    [IndexError] or [ValueError], and no polygon is drawn: the canvas
    receives at most the vertex markers of that first basic set, namely
    when they are shown and every vertex has at least two coordinates. *)
Theorem plot_set_shapes_first_shape_fails
    (G : Geometry) (Sup : Support G) (set_data : ISet)
    (args : list pyval) (kwargs : shape_kwargs) (c : canvas)
    (b : BasicSet) (rest : list BasicSet) :
  let vs := bset_get_vertex_coordinates b in
  let show := pop (kw_show_vertices kwargs) true in
  is_bounded set_data = true ->
  foreach_basic_set set_data = b :: rest ->
  bset_is_bounded b = true ->
  Exists (fun v : coords => List.length v <> 2%nat) vs ->
  plot_set_shapes set_data args kwargs c
  = (c ++ (if show && forallb (fun v => 2 <=? List.length v)%nat vs
           then [Plot (map (fun v => nth 0 v (0 # 1)) vs)
                      (map (fun v => nth 1 v (0 # 1)) vs)
                      (pop (kw_vertex_marker kwargs) "o"%string)
                      (pop (kw_vertex_size kwargs) 10%Z)
                      (resolved_color
                         (pop (kw_shape_color kwargs) "gray"%string)
                         (kw_vertex_color kwargs)) None]
           else []),
     Raise IslError).
Proof.
  intros vs show Hs E Hb He. unfold plot_set_shapes. rewrite Hs, E.
  unfold assert_. rewrite bind_ret. cbn [foreach_callback]. fold show.
  destruct (forallb (fun v => 2 <=? List.length v)%nat vs) eqn:F.
  - assert (F' : Forall (fun v : coords => (2 <= List.length v)%nat) vs).
    { apply Forall_forall. intros v Hv. rewrite forallb_forall in F.
      apply Nat.leb_le. now apply F. }
    rewrite (@plot_bset_shape_value_error G Sup b show _ _ _ _ c Hb He
               (fun _ => F')).
    rewrite andb_true_r. reflexivity.
  - rewrite andb_false_r.
    assert (X : Exists (fun v : coords => (List.length v < 2)%nat) vs).
    { eapply Exists_impl; [| exact (forallb_false_Exists _ _ F)].
      intros v Hv. now apply Nat.leb_gt. }
    destruct show.
    + rewrite (@plot_bset_shape_raise G Sup b _ _ _ _ c Hb X).
      now rewrite app_nil_r.
    + rewrite (@plot_bset_shape_value_error G Sup b false _ _ _ _ c Hb He).
      * reflexivity.
      * discriminate.
Qed.


(** ** The further properties on concrete inputs *)

Lemma plot_bset_shape_polygon_witness :
  plot_bset_shape (G := geometry) square true "gray" None "o" 10 []
  = ([Plot [0 # 1; 2 # 1; 2 # 1; 0 # 1] [0 # 1; 0 # 1; 2 # 1; 2 # 1]
           "o" 10 "gray" None;
      AddPatch [[0 # 1; 0 # 1]; [2 # 1; 0 # 1]; [2 # 1; 2 # 1];
                [0 # 1; 2 # 1]; [0 # 1; 0 # 1]]
               [MOVETO; LINETO; LINETO; LINETO; CLOSEPOLY] "gray"],
     Ok tt).
Proof.
  refine (proj1 (@plot_bset_shape_polygon geometry support square true
                   "gray" None "o" 10%Z [] [0 # 1; 0 # 1]
                   [[2 # 1; 0 # 1]; [2 # 1; 2 # 1]; [0 # 1; 2 # 1]]
                   eq_refl _ _)).
  - vm_compute. reflexivity.
  - repeat constructor.
Defined.

Lemma plot_bset_shape_vertex_not_a_pair_witness :
  plot_bset_shape (G := geometry) line true "gray" None "o" 10 []
  = ([], Raise IndexError) /\
  plot_bset_shape (G := geometry) line false "gray" None "o" 10 []
  = ([], Raise ValueError).
Proof.
  split.
  - refine (proj1 (@plot_bset_shape_vertex_not_a_pair geometry support line
                     true "gray" None "o" 10%Z [] eq_refl _) eq_refl _).
    + vm_compute. apply Exists_cons_hd. discriminate.
    + vm_compute. apply Exists_cons_hd. repeat constructor.
  - refine (proj1 (proj2 (@plot_bset_shape_vertex_not_a_pair geometry support
                            line false "gray" None "o" 10%Z [] eq_refl _))
                  (or_introl eq_refl)).
    vm_compute. apply Exists_cons_hd. discriminate.
Defined.

Lemma plot_map_one_arrow_per_pair_witness :
  exists pairs : list (point * point),
    NoDup pairs /\
    (forall a b, In (a, b) pairs <-> In (a, b) row_dependences) /\
    plot_map (G := geometry) row_dependences "->" 1 "gray" []
    = (map (fun ab => arrow_call "->" 1 "gray"
                        (f_get_point_coordinates (fst ab))
                        (f_get_point_coordinates (snd ab))) pairs,
       Ok tt).
Proof.
  refine (@plot_map_one_arrow_per_pair geometry support semantics finite_laws
            row_dependences row_dependences "->" 1%Z "gray" []
            (fun a b H => H) _).
  intros a b H. unfold row_dependences in H. cbn [map_mem semantics In] in H.
  repeat (destruct H as [H | H]; [inversion H; split; reflexivity |]).
  destruct H.
Defined.

Lemma plot_map_as_groups_all_convex_witness :
  outcome (plot_map_as_groups (G := geometry) row_tiling "blue" None "o" 10)
          [] = Ok tt.
Proof.
  unfold outcome.
  rewrite (@plot_map_as_groups_all_convex geometry support row_tiling "blue"
             None "o" 10%Z []).
  - reflexivity.
  - assert (E : f_foreach_point (f_range row_tiling) = [[0%Z]; [1%Z]])
      by (vm_compute; reflexivity).
    change (@foreach_point geometry (@range geometry row_tiling))
      with (f_foreach_point (f_range row_tiling)).
    rewrite E.
    repeat (apply Forall_cons || apply Forall_nil);
      repeat split; vm_compute; repeat constructor.
Defined.

Lemma plot_set_shapes_draws_every_basic_set_witness :
  outcome (plot_set_shapes (G := geometry) square []
                           (ShapeKwargs None None None None None)) []
  = Ok tt.
Proof.
  unfold outcome.
  rewrite (@plot_set_shapes_draws_every_basic_set geometry support square []
             (ShapeKwargs None None None None None) [] eq_refl).
  - reflexivity.
  - assert (E : f_foreach_basic_set square
                = [Fin [[0; 0]]; Fin [[2; 0]]; Fin [[2; 2]]; Fin [[0; 2]];
                   Fin [[1; 1]]]%Z)
      by (vm_compute; reflexivity).
    change (@foreach_basic_set geometry square)
      with (f_foreach_basic_set square).
    rewrite E.
    repeat (apply Forall_cons || apply Forall_nil);
      (split; [reflexivity | vm_compute; repeat constructor]).
Defined.

Lemma plot_domain_short_point_witness :
  outcome (plot_domain (G := geometry) line (Some row_dependences)
                       (Some row_tiling) None "blue" "black" 10 "o" true) []
  = Raise IndexError.
Proof.
  refine (proj1 (@plot_domain_short_point geometry support line
                   (Some row_dependences) (Some row_tiling) None "blue"
                   "black" 10%Z "o" true [] _)).
  vm_compute. apply Exists_cons_hd. repeat constructor.
Defined.

Lemma plot_domain_arrows_inside_domain_witness :
  exists pairs : list (point * point),
    NoDup pairs /\
    (forall a b, In (a, b) pairs <->
                 In (a, b) row_dependences /\
                 memb row a = true /\ memb row b = true) /\
    plot_domain (G := geometry) row (Some row_dependences) None None "blue"
                "black" 10 "o" false []
    = ([Autoscale true true; TightLayout;
        Plot [0 # 1; 1 # 1; 2 # 1; 3 # 1] [0 # 1; 0 # 1; 0 # 1; 0 # 1]
             "o" 10 "black" (Some 0%Z)]
       ++ map (fun ab => arrow_call "->" 1 "gray"
                           (f_get_point_coordinates (fst ab))
                           (f_get_point_coordinates (snd ab))) pairs,
       Ok tt).
Proof.
  refine (@plot_domain_arrows_inside_domain geometry support semantics
            finite_laws row row_dependences
            [[0; 0]; [1; 0]; [2; 0]; [3; 0]]%Z "blue" "black" 10%Z "o"
            false [] _ _ _).
  - intros p Hp. now apply memb_Fin in Hp.
  - vm_compute. repeat constructor.
  - discriminate.
Defined.

Lemma plot_set_shapes_first_shape_fails_witness :
  plot_set_shapes (G := geometry) line []
                  (ShapeKwargs None None None None None) []
  = ([], Raise IslError).
Proof.
  refine (@plot_set_shapes_first_shape_fails geometry support line []
            (ShapeKwargs None None None None None) []
            (Fin [[0%Z]]) [Fin [[1%Z]]] eq_refl _ eq_refl _).
  - vm_compute. reflexivity.
  - vm_compute. apply Exists_cons_hd. discriminate.
Defined.

